(** * schedule: an in-process periodic job scheduler

    A shallow embedding of [schedule/__init__.py] (classes [Scheduler] and
    [Job]) together with the part of Python's [datetime] module that the
    scheduler relies on, followed by the properties of the next-run
    computation and of the due-selection / execution protocol.

    Conventions of the embedding.
    - Python integers are [Z]; strings are [string] (ASCII characters).
    - A Python method that may raise returns a [Res]; methods that mutate
      objects are state transformers [M S A := S -> Res A * S]: the state
      reached when an exception propagates is kept, as in Python.
    - [Job] objects live in a heap indexed by their identity ([job_ref]);
      the scheduler's [jobs] list holds references.
    - Reading the wall clock, drawing a random integer and calling a bound
      job function are the three sources of non-determinism; they are
      resolved by oracles carried in the state. *)

From Stdlib Require Import ZArith Lia Bool List String Ascii Sorted.
From stdpp Require Import base option list gmap strings.

Local Open Scope Z_scope.

Ltac Zify.zify_post_hook ::= Z.div_mod_to_equations.

(** ** Exceptions and results *)

(** The exception classes of the module ([ScheduleError] and its two
    subclasses) and the built-in ones that the modelled code can raise.
    [JobFunctionError] stands for whatever a bound job function raises. *)
Inductive exn : Type :=
  | ScheduleError
  | ScheduleValueError
  | IntervalError
  | TypeError
  | ValueError
  | OverflowError
  | AttributeError
  | AssertionError
  | ReferenceError
  | UnknownTimeZoneError
  | JobFunctionError (code : Z).


Definition is_ScheduleValueError (e : exn) : bool :=
  match e with
  | ScheduleValueError | IntervalError => true
  | _ => false
  end.

Inductive Res (A : Type) : Type :=
  | Ok (a : A)
  | Raise (e : exn).
Arguments Ok {A} a.
Arguments Raise {A} e.

Definition res_bind {A B} (r : Res A) (k : A -> Res B) : Res B :=
  match r with
  | Ok a => k a
  | Raise e => Raise e
  end.

Definition is_Ok {A} (r : Res A) : bool :=
  match r with Ok _ => true | Raise _ => false end.

(** Python functions without a [return] value return [None]. *)
Abbreviation NoneType := Datatypes.unit.

(** [x is None] and [x is not None]. *)
Definition is_None {A} (x : option A) : bool :=
  match x with None => true | Some _ => false end.
Definition not_None {A} (x : option A) : bool := negb (is_None x).

(** ** The state-and-exception monad *)

Definition M (S A : Type) : Type := S -> Res A * S.

Definition ret {S A} (a : A) : M S A := fun s => (Ok a, s).
Definition raise {S A} (e : exn) : M S A := fun s => (Raise e, s).
Definition bind {S A B} (m : M S A) (k : A -> M S B) : M S B :=
  fun s => match m s with
           | (Ok a, s') => k a s'
           | (Raise e, s') => (Raise e, s')
           end.
Definition lift {S A} (r : Res A) : M S A := fun s => (r, s).
Definition gets {S A} (f : S -> A) : M S A := fun s => (Ok (f s), s).
Definition modify {S} (f : S -> S) : M S NoneType := fun s => (Ok tt, f s).

Declare Scope py_scope.
Delimit Scope py_scope with py.
Notation "x <- m ;; k" := (bind m (fun x => k))
  (at level 100, m at next level, right associativity) : py_scope.
Notation "m ;;; k" := (bind m (fun _ => k))
  (at level 100, right associativity) : py_scope.
Local Open Scope py_scope.

(** ** Python's [datetime] module

    A [timedelta] is its total number of microseconds (Python normalises
    it to days, seconds and microseconds; the three are determined by the
    total).  A [datetime] is the number of microseconds of its local
    clock reading since 0001-01-01T00:00:00, together with its [tzinfo].
    The date part is thereby the proleptic Gregorian ordinal, which is
    what Python uses for date arithmetic and for [weekday()]. *)

Definition SECOND : Z := 1000000.
Definition MINUTE : Z := 60 * SECOND.
Definition HOUR : Z := 60 * MINUTE.
Definition DAY : Z := 24 * HOUR.
Definition WEEK : Z := 7 * DAY.

(** [date.max.toordinal()], the ordinal of 9999-12-31. *)
Definition MAXORDINAL : Z := 3652059.
(** [timedelta.max.days]. *)
Definition MAXDELTADAYS : Z := 999999999.

Definition timedelta : Type := Z.

(** [timedelta.days]: the normalised day count (floor division). *)
Definition td_days (td : timedelta) : Z := td / DAY.

(** Construction of a [timedelta] from a microsecond count: Python raises
    [OverflowError] when the normalised day count leaves
    [-999999999 .. 999999999]. *)
Definition td_make (us : Z) : Res timedelta :=
  if (- MAXDELTADAYS <=? us / DAY) && (us / DAY <=? MAXDELTADAYS)
  then Ok us else Raise OverflowError.

(** [timedelta] built from one keyword argument, [unit=n], for the
    keywords the scheduler passes. *)
Definition td_of_unit (unit : string) (n : Z) : Res timedelta :=
  if (unit =? "seconds")%string then td_make (n * SECOND)
  else if (unit =? "minutes")%string then td_make (n * MINUTE)
  else if (unit =? "hours")%string then td_make (n * HOUR)
  else if (unit =? "days")%string then td_make (n * DAY)
  else if (unit =? "weeks")%string then td_make (n * WEEK)
  else Raise TypeError.

Definition td_sub (a b : timedelta) : Res timedelta := td_make (a - b).
Definition td_neg (a : timedelta) : Res timedelta := td_make (- a).

(** [tzinfo] objects are identified by a reference; what they compute is
    external to the scheduler (see [Externals] below). *)
Definition tzinfo : Type := nat.

Record time : Type := mk_time {
  t_hour : Z;
  t_minute : Z;
  t_second : Z;
  t_microsecond : Z;
  t_tzinfo : option tzinfo
}.

Record datetime : Type := mk_datetime {
  dt_ticks : Z;
  dt_tzinfo : option tzinfo
}.

Global Instance datetime_eq_dec : EqDecision datetime.
Proof. solve_decision. Defined.
Global Instance time_eq_dec : EqDecision time.
Proof. solve_decision. Defined.

(** A value of the type is a Python [datetime] when its date lies between
    0001-01-01 and 9999-12-31. *)
Definition dt_valid (d : datetime) : Prop :=
  0 <= dt_ticks d < MAXORDINAL * DAY.

Definition dt_toordinal (d : datetime) : Z := dt_ticks d / DAY + 1.
(** [date.weekday()]: [(self.toordinal() + 6) % 7], Monday is 0. *)
Definition dt_weekday (d : datetime) : Z := (dt_toordinal d + 6) mod 7.
Definition dt_hour (d : datetime) : Z := (dt_ticks d mod DAY) / HOUR.
Definition dt_minute (d : datetime) : Z := (dt_ticks d mod HOUR) / MINUTE.
Definition dt_second (d : datetime) : Z := (dt_ticks d mod MINUTE) / SECOND.
Definition dt_microsecond (d : datetime) : Z := dt_ticks d mod SECOND.

(** Microseconds since midnight of a clock reading. *)
Definition clock_us (h m s us : Z) : Z := h * HOUR + m * MINUTE + s * SECOND + us.
Definition t_us (t : time) : Z :=
  clock_us (t_hour t) (t_minute t) (t_second t) (t_microsecond t).

(** [datetime.time()]: the time of day, without [tzinfo]. *)
Definition dt_time (d : datetime) : time :=
  mk_time (dt_hour d) (dt_minute d) (dt_second d) (dt_microsecond d) None.

(** [datetime.time(hour, minute, second)] validates its fields. *)
Definition time_make (h m s : Z) : Res time :=
  if (0 <=? h) && (h <=? 23) && (0 <=? m) && (m <=? 59) && (0 <=? s) && (s <=? 59)
  then Ok (mk_time h m s 0 None) else Raise ValueError.

(** Comparison of two naive [time] objects: lexicographic on
    (hour, minute, second, microsecond). *)
Definition time_gt (a b : time) : bool :=
  (t_hour b <? t_hour a)
  || ((t_hour a =? t_hour b)
      && ((t_minute b <? t_minute a)
          || ((t_minute a =? t_minute b)
              && ((t_second b <? t_second a)
                  || ((t_second a =? t_second b)
                      && (t_microsecond b <? t_microsecond a)))))).

(** [datetime.replace(hour=.., minute=.., second=.., microsecond=..)]: a
    keyword that is absent keeps the field; the date and the [tzinfo] are
    kept; an out-of-range field raises [ValueError]. *)
Definition dt_replace (d : datetime) (hour minute second microsecond : option Z)
  : Res datetime :=
  let h := default (dt_hour d) hour in
  let m := default (dt_minute d) minute in
  let s := default (dt_second d) second in
  let us := default (dt_microsecond d) microsecond in
  if (0 <=? h) && (h <=? 23) && (0 <=? m) && (m <=? 59)
     && (0 <=? s) && (s <=? 59) && (0 <=? us) && (us <=? 999999)
  then Ok (mk_datetime (dt_ticks d / DAY * DAY + clock_us h m s us) (dt_tzinfo d))
  else Raise ValueError.

(** [datetime + timedelta]: arithmetic on the local reading, the [tzinfo]
    is kept; [OverflowError] when the date leaves the supported range. *)
Definition dt_add (d : datetime) (td : timedelta) : Res datetime :=
  let t := dt_ticks d + td in
  if (0 <=? t) && (t <? MAXORDINAL * DAY)
  then Ok (mk_datetime t (dt_tzinfo d)) else Raise OverflowError.

(** [datetime - timedelta] is [self + -other]. *)
Definition dt_sub_td (d : datetime) (td : timedelta) : Res datetime :=
  res_bind (td_neg td) (dt_add d).

(** ** Objects of the scheduler *)

(** Identity of a [Job] object, of a callable bound by [do()], and the
    values a bound job function may return: [None], the class [CancelJob],
    an instance of it, or some other value. *)
Definition job_ref : Type := nat.
Definition callable : Type := nat.

Inductive pyval : Type :=
  | PyNone
  | PyCancelJobClass
  | PyCancelJobInstance
  | PyInt (n : Z)
  | PyStr (s : string).

(** What happened so far: [EvRun j] when [Job.run] was entered on job [j],
    [EvCall f] when the bound function [f] was invoked. *)
Inductive event : Type :=
  | EvRun (j : job_ref)
  | EvCall (f : callable).

Global Instance event_eq_dec : EqDecision event.
Proof. solve_decision. Defined.

Section External.

(** What the scheduler takes from outside: the behaviour of [tzinfo]
    objects (the standard library's [datetime.UTC] and the time zones of
    the third-party [pytz]), calendar fields of the standard library that
    only the time-zone path reads, [strptime], and the bound job
    functions. *)
Class Externals : Type := {
  (** [datetime.UTC] *)
  UTC : tzinfo;
  (** [tz.utcoffset(dt)] in microseconds, for a local reading [dt] *)
  utcoffset : tzinfo -> Z -> Z;
  (** [pytz]'s [tz.normalize(dt)] *)
  tz_normalize : tzinfo -> datetime -> Res datetime;
  (** [dt.astimezone(tz)] *)
  dt_astimezone : datetime -> tzinfo -> Res datetime;
  (** [pytz.timezone(name)] *)
  pytz_timezone : string -> Res tzinfo;
  (** [dt.day], the day of the month *)
  dt_day : datetime -> Z;
  (** [dt.replace(day=..)] *)
  dt_replace_day : datetime -> Z -> Res datetime;
  (** [datetime.strptime(s, format)]; [None] stands for [ValueError] *)
  strptime : string -> string -> option datetime;
  (** calling a bound job function: what it returns or raises may depend
      on everything that ran before *)
  job_call : callable -> list event -> Res pyval
}.

Context `{Externals}.

(** [datetime.__sub__] on two datetimes. *)
Definition dt_sub (a b : datetime) : Res timedelta :=
  let base := dt_ticks a - dt_ticks b in
  match dt_tzinfo a, dt_tzinfo b with
  | None, None => Ok base
  | Some tza, Some tzb =>
      if decide (tza = tzb) then Ok base
      else
        let myoff := utcoffset tza (dt_ticks a) in
        let otoff := utcoffset tzb (dt_ticks b) in
        if myoff =? otoff then Ok base else Ok (base + otoff - myoff)
  | _, _ => Raise TypeError
  end.

(** [datetime._cmp]: the sign of the comparison, [TypeError] between a
    naive and an aware datetime. *)
Definition dt_cmp (a b : datetime) : Res comparison :=
  match dt_tzinfo a, dt_tzinfo b with
  | None, None => Ok (dt_ticks a ?= dt_ticks b)
  | Some tza, Some tzb =>
      if decide (tza = tzb) then Ok (dt_ticks a ?= dt_ticks b)
      else
        let myoff := utcoffset tza (dt_ticks a) in
        let otoff := utcoffset tzb (dt_ticks b) in
        if myoff =? otoff then Ok (dt_ticks a ?= dt_ticks b)
        else Ok (dt_ticks a - dt_ticks b + otoff - myoff ?= 0)
  | _, _ => Raise TypeError
  end.

Definition dt_lt (a b : datetime) : Res bool :=
  res_bind (dt_cmp a b) (fun c => Ok (match c with Lt => true | _ => false end)).
Definition dt_gt (a b : datetime) : Res bool :=
  res_bind (dt_cmp a b) (fun c => Ok (match c with Gt => true | _ => false end)).
Definition dt_ge (a b : datetime) : Res bool :=
  res_bind (dt_cmp a b) (fun c => Ok (match c with Lt => false | _ => true end)).


(** *** The [Scheduler] and [Job] objects *)

(** A job refers to the scheduler it was created by, or to [None]. *)
Inductive sched_ref : Type := the_scheduler.

Record Scheduler : Type := mk_Scheduler {
  jobs : list job_ref;
  is_realtime : bool;
  _timestamp : option datetime
}.

Record Job : Type := mk_Job {
  interval : Z;
  latest : option Z;
  job_func : option callable;
  unit : option string;
  at_time : option time;
  at_time_zone : option tzinfo;
  last_run : option datetime;
  next_run : option datetime;
  period : option timedelta;
  start_day : option string;
  cancel_after : option datetime;
  tags : gset string;
  scheduler : option sched_ref
}.

Definition set_latest (v : option Z) (j : Job) : Job :=
  mk_Job (interval j) v (job_func j) (unit j) (at_time j) (at_time_zone j)
    (last_run j) (next_run j) (period j) (start_day j) (cancel_after j)
    (tags j) (scheduler j).
Definition set_job_func (v : option callable) (j : Job) : Job :=
  mk_Job (interval j) (latest j) v (unit j) (at_time j) (at_time_zone j)
    (last_run j) (next_run j) (period j) (start_day j) (cancel_after j)
    (tags j) (scheduler j).
Definition set_unit (v : option string) (j : Job) : Job :=
  mk_Job (interval j) (latest j) (job_func j) v (at_time j) (at_time_zone j)
    (last_run j) (next_run j) (period j) (start_day j) (cancel_after j)
    (tags j) (scheduler j).
Definition set_at_time (v : option time) (j : Job) : Job :=
  mk_Job (interval j) (latest j) (job_func j) (unit j) v (at_time_zone j)
    (last_run j) (next_run j) (period j) (start_day j) (cancel_after j)
    (tags j) (scheduler j).
Definition set_at_time_zone (v : option tzinfo) (j : Job) : Job :=
  mk_Job (interval j) (latest j) (job_func j) (unit j) (at_time j) v
    (last_run j) (next_run j) (period j) (start_day j) (cancel_after j)
    (tags j) (scheduler j).
Definition set_last_run (v : option datetime) (j : Job) : Job :=
  mk_Job (interval j) (latest j) (job_func j) (unit j) (at_time j)
    (at_time_zone j) v (next_run j) (period j) (start_day j) (cancel_after j)
    (tags j) (scheduler j).
Definition set_next_run (v : option datetime) (j : Job) : Job :=
  mk_Job (interval j) (latest j) (job_func j) (unit j) (at_time j)
    (at_time_zone j) (last_run j) v (period j) (start_day j) (cancel_after j)
    (tags j) (scheduler j).
Definition set_period (v : option timedelta) (j : Job) : Job :=
  mk_Job (interval j) (latest j) (job_func j) (unit j) (at_time j)
    (at_time_zone j) (last_run j) (next_run j) v (start_day j) (cancel_after j)
    (tags j) (scheduler j).
Definition set_start_day (v : option string) (j : Job) : Job :=
  mk_Job (interval j) (latest j) (job_func j) (unit j) (at_time j)
    (at_time_zone j) (last_run j) (next_run j) (period j) v (cancel_after j)
    (tags j) (scheduler j).
Definition set_cancel_after (v : option datetime) (j : Job) : Job :=
  mk_Job (interval j) (latest j) (job_func j) (unit j) (at_time j)
    (at_time_zone j) (last_run j) (next_run j) (period j) (start_day j) v
    (tags j) (scheduler j).
Definition set_tags (v : gset string) (j : Job) : Job :=
  mk_Job (interval j) (latest j) (job_func j) (unit j) (at_time j)
    (at_time_zone j) (last_run j) (next_run j) (period j) (start_day j)
    (cancel_after j) v (scheduler j).

(** [Job.__init__(interval, scheduler)] *)
Definition Job_init (interval : Z) (scheduler : option sched_ref) : Job :=
  mk_Job interval None None None None None None None None None None ∅ scheduler.

(** [Scheduler.__init__(is_realtime, start_timestamp)] *)
Definition Scheduler_init (is_realtime : bool) (start_timestamp : option datetime)
  : Res Scheduler :=
  if is_realtime && not_None (start_timestamp) then Raise ScheduleError
  else if negb is_realtime && is_None (start_timestamp) then Raise ScheduleError
  else Ok (mk_Scheduler [] is_realtime start_timestamp).

(** *** The state

    [Env] is everything a job method can touch besides the job itself:
    the scheduler object, the wall clock ([wall_clock n] is the local
    reading, in UTC, that the [n]-th call of [datetime.now] returns), the
    random source and the trace of events.  A [World] adds the heap of
    job objects. *)
Record Env : Type := mk_Env {
  sched : Scheduler;
  wall_clock : nat -> Z;
  clock_reads : nat;
  random_source : nat -> Z;
  random_draws : nat;
  trace : list event
}.

Record World : Type := mk_World {
  heap : gmap job_ref Job;
  env : Env
}.

Definition set_sched (v : Scheduler) (e : Env) : Env :=
  mk_Env v (wall_clock e) (clock_reads e) (random_source e) (random_draws e) (trace e).
Definition set_clock_reads (v : nat) (e : Env) : Env :=
  mk_Env (sched e) (wall_clock e) v (random_source e) (random_draws e) (trace e).
Definition set_random_draws (v : nat) (e : Env) : Env :=
  mk_Env (sched e) (wall_clock e) (clock_reads e) (random_source e) v (trace e).
Definition set_trace (v : list event) (e : Env) : Env :=
  mk_Env (sched e) (wall_clock e) (clock_reads e) (random_source e) (random_draws e) v.
Definition set_jobs (v : list job_ref) (s : Scheduler) : Scheduler :=
  mk_Scheduler v (is_realtime s) (_timestamp s).
Definition set__timestamp (v : option datetime) (s : Scheduler) : Scheduler :=
  mk_Scheduler (jobs s) (is_realtime s) v.

(** The state of a job method: [self] and its environment. *)
Definition JS : Type := Job * Env.

Definition self : M JS Job := gets fst.
Definition set_self (f : Job -> Job) : M JS NoneType :=
  modify (fun s => (f (fst s), snd s)).
Definition in_env {A} (m : M Env A) : M JS A :=
  fun s => let (r, e') := m (snd s) in (r, (fst s, e')).

(** [x] where Python needs a value that is not [None]; [e] is what the
    operation applied to [None] raises. *)
Definition need {S A} (o : option A) (e : exn) : M S A :=
  match o with Some a => ret a | None => raise e end.

(** Record an event in the trace. *)
Definition log (ev : event) : M JS NoneType :=
  modify (fun s => (fst s, set_trace (trace (snd s) ++ [ev]) (snd s))).

(** [random.randint(a, b)]: an integer [N] with [a <= N <= b], taken from
    the random source; [ValueError] on an empty range. *)
Definition randint (a b : Z) : M Env Z := fun e =>
  if b <? a then (Raise ValueError, e)
  else (Ok (a + random_source e (random_draws e) mod (b - a + 1)),
        set_random_draws (S (random_draws e)) e).

(** The [Scheduler.timestamp] property: the wall clock in UTC for a
    realtime scheduler, the recorded [_timestamp] otherwise. *)
Definition timestamp : M Env (option datetime) := fun e =>
  if is_realtime (sched e)
  then (Ok (Some (mk_datetime (wall_clock e (clock_reads e)) (Some UTC))),
        set_clock_reads (S (clock_reads e)) e)
  else (Ok (_timestamp (sched e)), e).

(** The setter of [Scheduler.timestamp]. *)
Definition set_timestamp (t : datetime) : M Env NoneType := fun e =>
  if is_realtime (sched e) then (Raise ScheduleError, e)
  else match _timestamp (sched e) with
       | None => (Raise TypeError, e)
       | Some cur =>
           match dt_lt t cur with
           | Raise x => (Raise x, e)
           | Ok true => (Raise ScheduleError, e)
           | Ok false => (Ok tt, set_sched (set__timestamp (Some t) (sched e)) e)
           end
       end.


(** ** Class [Job] *)

(** [s in (..)] and [s == "..."] on an attribute that may be [None]. *)
Definition str_in (s : option string) (l : list string) : bool :=
  match s with
  | Some x => existsb (String.eqb x) l
  | None => false
  end.
Definition str_is (s : option string) (x : string) : bool := str_in s [x].

(** Truth value of an optional string: [None] and [""] are false. *)
Definition truthy (s : option string) : bool :=
  match s with
  | Some x => negb (x =? "")%string
  | None => false
  end.

(** [tuple.index(x)] *)
Fixpoint index_of (x : string) (l : list string) : option Z :=
  match l with
  | [] => None
  | y :: l' => if (x =? y)%string then Some 0
               else option_map Z.succ (index_of x l')
  end.

Definition weekdays : list string :=
  ["monday"; "tuesday"; "wednesday"; "thursday"; "friday"; "saturday"; "sunday"].

(** [self.scheduler.timestamp]; [AttributeError] when the job has no
    scheduler. *)
Definition scheduler_timestamp : M JS (option datetime) :=
  j <- self ;;
  match scheduler j with
  | None => raise AttributeError
  | Some _ => in_env timestamp
  end.

(** [Job._is_overdue(when)] *)
Definition _is_overdue (when : option datetime) : M JS bool :=
  j <- self ;;
  match cancel_after j with
  | None => ret false
  | Some ca => w <- need when TypeError ;; lift (dt_gt w ca)
  end.

(** [Job._to_at_timezone(input)] *)
Definition _to_at_timezone (input : option datetime) : M JS (option datetime) :=
  j <- self ;;
  match at_time_zone j, input with
  | Some tz, Some d => r <- lift (dt_astimezone d tz) ;; ret (Some r)
  | _, _ => ret input
  end.

(** [Job._normalize_preserve_timestamp(input)] *)
Definition _normalize_preserve_timestamp (input : option datetime)
  : M JS (option datetime) :=
  j <- self ;;
  match at_time_zone j, input with
  | Some tz, Some d =>
      normalized <- lift (tz_normalize tz d) ;;
      r <- lift (dt_replace_day normalized (dt_day d)) ;;
      r <- lift (dt_replace r (Some (dt_hour d)) (Some (dt_minute d))
                   (Some (dt_second d)) (Some (dt_microsecond d))) ;;
      ret (Some r)
  | _, _ => ret input
  end.

(** [self.next_run] where the code operates on it as a datetime. *)
Definition the_next_run : M JS datetime :=
  j <- self ;; need (next_run j) TypeError.

(** The body of [Job._schedule_next_run] is given in the order of the
    source, one definition per block of the method; [p] is [self.period]
    and [now] the reference instant, both locals of the method. *)

(** The effective interval: a fresh random draw when [latest] is set. *)
Definition effective_interval : M JS Z :=
  j <- self ;;
  match latest j with
  | Some l =>
      if negb (interval j <=? l) then raise ScheduleError
      else in_env (randint (interval j) l)
  | None => ret (interval j)
  end.

(** The reference instant: all computation happens in the requested time
    zone. *)
Definition reference_now : M JS (option datetime) :=
  j <- self ;;
  match at_time_zone j with
  | Some tz =>
      t <- scheduler_timestamp ;;
      d <- need t AttributeError ;;
      match dt_tzinfo d with
      | None =>
          (* a naive timestamp is taken to be in the requested zone *)
          t' <- scheduler_timestamp ;;
          d' <- need t' AttributeError ;;
          ret (Some (mk_datetime (dt_ticks d') (Some tz)))
      | Some _ =>
          t' <- scheduler_timestamp ;;
          d' <- need t' AttributeError ;;
          a <- lift (dt_astimezone d' tz) ;;
          n <- lift (tz_normalize tz a) ;;
          ret (Some n)
      end
  | None => scheduler_timestamp
  end.

(** [if self.start_day is not None: ..]: move to the requested weekday. *)
Definition weekday_anchor (p : timedelta) : M JS NoneType :=
  j <- self ;;
  match start_day j with
  | Some sd =>
      if negb (str_is (unit j) "weeks") then raise ScheduleValueError else
      match index_of sd weekdays with
      | None => raise ScheduleValueError
      | Some weekday =>
          nr <- the_next_run ;;
          let days_ahead := weekday - dt_weekday nr in
          (* the target day already happened this week *)
          let days_ahead := if days_ahead <=? 0 then days_ahead + 7 else days_ahead in
          td <- lift (td_make (days_ahead * DAY)) ;;
          delta <- lift (td_sub td p) ;;
          nr' <- lift (dt_add nr delta) ;;
          set_self (set_next_run (Some nr'))
      end
  | None => ret tt
  end.

(** Normalise the timestamp before the at-time is applied. *)
Definition normalize_next_run : M JS NoneType :=
  j <- self ;;
  match at_time_zone j with
  | Some tz =>
      nr <- the_next_run ;;
      n <- lift (tz_normalize tz nr) ;;
      set_self (set_next_run (Some n))
  | None => ret tt
  end.

(** [if self.at_time is not None: ..]: apply the clock anchor, and run at
    the specified time today (or this hour) as well. *)
Definition clock_anchor (now : datetime) (p : timedelta) : M JS NoneType :=
  j <- self ;;
  match at_time j with
  | Some at_time =>
      if negb (str_in (unit j) ["days"; "hours"; "minutes"])
         && is_None (start_day j)
      then raise ScheduleValueError else
      let kw_second := Some (t_second at_time) in
      let kw_microsecond := Some 0 in
      let kw_hour :=
        if str_is (unit j) "days" || not_None (start_day j)
        then Some (t_hour at_time) else None in
      let kw_minute :=
        if str_in (unit j) ["days"; "hours"] || not_None (start_day j)
        then Some (t_minute at_time) else None in
      nr <- the_next_run ;;
      nr <- lift (dt_replace nr kw_hour kw_minute kw_second kw_microsecond) ;;
      set_self (set_next_run (Some nr)) ;;;
      last_run_tz <- _to_at_timezone (last_run j) ;;
      fresh <- match last_run_tz with
               | None => ret true
               | Some lr => d <- lift (dt_sub nr lr) ;; ret (p <? d)
               end ;;
      if fresh then
        if str_is (unit j) "days" && time_gt (dt_time nr) (dt_time now)
           && (interval j =? 1)
        then nr' <- lift (dt_sub_td nr DAY) ;; set_self (set_next_run (Some nr'))
        else if str_is (unit j) "hours"
                && ((dt_minute now <? t_minute at_time)
                    || ((t_minute at_time =? dt_minute now)
                        && (dt_second now <? t_second at_time)))
        then nr' <- lift (dt_sub_td nr HOUR) ;; set_self (set_next_run (Some nr'))
        else if str_is (unit j) "minutes" && (dt_second now <? t_second at_time)
        then nr' <- lift (dt_sub_td nr MINUTE) ;; set_self (set_next_run (Some nr'))
        else ret tt
      else ret tt
  | None => ret tt
  end.

(** [if self.start_day is not None and self.at_time is not None: ..]:
    will we still make the specified time today? *)
Definition same_week (now : datetime) (p : timedelta) : M JS NoneType :=
  j <- self ;;
  if not_None (start_day j) && not_None (at_time j) then
    nr <- the_next_run ;;
    d <- lift (dt_sub nr now) ;;
    if 7 <=? td_days d
    then nr' <- lift (dt_sub_td nr p) ;; set_self (set_next_run (Some nr'))
    else ret tt
  else ret tt.

(** Back to the scheduler's time domain, keeping the local reading. *)
Definition to_native : M JS NoneType :=
  j <- self ;;
  match at_time_zone j with
  | Some _ =>
      n <- _normalize_preserve_timestamp (next_run j) ;;
      set_self (set_next_run n)
  | None => ret tt
  end.

(** [Job._schedule_next_run()]: compute the instant when the job should
    run next. *)
Definition _schedule_next_run : M JS NoneType :=
  j <- self ;;
  if negb (str_in (unit j) ["seconds"; "minutes"; "hours"; "days"; "weeks"])
  then raise ScheduleValueError else
  interval' <- effective_interval ;;
  now <- reference_now ;;
  p <- lift (td_of_unit (default "" (unit j)) interval') ;;
  set_self (set_period (Some p)) ;;;
  now <- need now TypeError ;;
  nr <- lift (dt_add now p) ;;
  set_self (set_next_run (Some nr)) ;;;
  weekday_anchor p ;;;
  normalize_next_run ;;;
  clock_anchor now p ;;;
  same_week now p ;;;
  to_native.

(** The [Job.should_run] property. *)
Definition should_run : M JS bool :=
  j <- self ;;
  match next_run j with
  | None => raise AssertionError
  | Some nr =>
      t <- scheduler_timestamp ;;
      now <- need t TypeError ;;
      lift (dt_ge now nr)
  end.

(** [Job.run()]: run the job and immediately reschedule it.  [me] is the
    identity of [self], recorded in the trace. *)
Definition run (me : job_ref) : M JS pyval :=
  log (EvRun me) ;;;
  t <- scheduler_timestamp ;;
  overdue <- _is_overdue t ;;
  if overdue then ret PyCancelJobClass else
  j <- self ;;
  f <- need (job_func j) TypeError ;;
  log (EvCall f) ;;;
  history <- gets (fun s => trace (snd s)) ;;
  ret_ <- lift (job_call f history) ;;
  t <- scheduler_timestamp ;;
  set_self (set_last_run t) ;;;
  _schedule_next_run ;;;
  j <- self ;;
  overdue <- _is_overdue (next_run j) ;;
  if overdue then ret PyCancelJobClass else ret ret_.

(** [Job.do(job_func, *args, **kwargs)]: bind the function, compute the
    first next run and register the job with its scheduler. *)
Definition do_ (me : job_ref) (f : callable) : M JS NoneType :=
  set_self (set_job_func (Some f)) ;;;
  _schedule_next_run ;;;
  j <- self ;;
  match scheduler j with
  | None => raise ScheduleError
  | Some _ =>
      modify (fun s => (fst s,
                        set_sched (set_jobs (jobs (sched (snd s)) ++ [me])
                                     (sched (snd s))) (snd s)))
  end.

(** [Job.to(latest)] *)
Definition to (latest : Z) : M JS NoneType := set_self (set_latest (Some latest)).


(** *** The unit and weekday properties *)

Definition seconds : M JS NoneType := set_self (set_unit (Some "seconds"%string)).
Definition minutes : M JS NoneType := set_self (set_unit (Some "minutes"%string)).
Definition hours : M JS NoneType := set_self (set_unit (Some "hours"%string)).
Definition days : M JS NoneType := set_self (set_unit (Some "days"%string)).
Definition weeks : M JS NoneType := set_self (set_unit (Some "weeks"%string)).

(** The singular forms insist on [interval == 1]. *)
Definition singular (plural : M JS NoneType) : M JS NoneType :=
  j <- self ;;
  if negb (interval j =? 1) then raise IntervalError else plural.

Definition second : M JS NoneType := singular seconds.
Definition minute : M JS NoneType := singular minutes.
Definition hour : M JS NoneType := singular hours.
Definition day : M JS NoneType := singular days.
Definition week : M JS NoneType := singular weeks.

Definition weekday_property (name : string) : M JS NoneType :=
  j <- self ;;
  if negb (interval j =? 1) then raise IntervalError else
  set_self (set_start_day (Some name)) ;;; weeks.

Definition monday : M JS NoneType := weekday_property "monday".
Definition tuesday : M JS NoneType := weekday_property "tuesday".
Definition wednesday : M JS NoneType := weekday_property "wednesday".
Definition thursday : M JS NoneType := weekday_property "thursday".
Definition friday : M JS NoneType := weekday_property "friday".
Definition saturday : M JS NoneType := weekday_property "saturday".
Definition sunday : M JS NoneType := weekday_property "sunday".

(** [Job.tag( *tags)]: a tag is a hashable value or not. *)
Inductive pytag : Type :=
  | HashableTag (s : string)
  | UnhashableTag.

Definition tag (new : list pytag) : M JS NoneType :=
  if negb (forallb (fun t => match t with HashableTag _ => true | _ => false end) new)
  then raise TypeError else
  set_self (fun j =>
    set_tags (tags j ∪ list_to_set (omap (fun t => match t with
                                                    | HashableTag x => Some x
                                                    | UnhashableTag => None
                                                    end) new)) j).

(** *** [Job.at(time_str, tz)] *)

Definition digit_upto (hi : nat) (c : ascii) : bool :=
  (48 <=? nat_of_ascii c)%nat && (nat_of_ascii c <=? 48 + hi)%nat.
Definition is_colon (c : ascii) : bool := (nat_of_ascii c =? 58)%nat.
Definition is_newline (c : ascii) : bool := (nat_of_ascii c =? 10)%nat.

(** A pattern that ends in [$] matches at the end of the string and also
    just before a newline that ends the string. *)
Definition up_to_dollar (body : list ascii -> bool) (l : list ascii) : bool :=
  body l ||
  match rev l with
  | c :: r => is_newline c && body (rev r)
  | [] => false
  end.

(** [^[0-2]\d:[0-5]\d(:[0-5]\d)?$] *)
Definition re_daily (time_str : string) : bool :=
  up_to_dollar (fun l =>
    match l with
    | [a; b; c; d; e] =>
        digit_upto 2 a && digit_upto 9 b && is_colon c
        && digit_upto 5 d && digit_upto 9 e
    | [a; b; c; d; e; f; g; h] =>
        digit_upto 2 a && digit_upto 9 b && is_colon c
        && digit_upto 5 d && digit_upto 9 e && is_colon f
        && digit_upto 5 g && digit_upto 9 h
    | _ => false
    end) (list_ascii_of_string time_str).

(** [^([0-5]\d)?:[0-5]\d$] *)
Definition re_hourly (time_str : string) : bool :=
  up_to_dollar (fun l =>
    match l with
    | [c; d; e] => is_colon c && digit_upto 5 d && digit_upto 9 e
    | [a; b; c; d; e] =>
        digit_upto 5 a && digit_upto 9 b && is_colon c
        && digit_upto 5 d && digit_upto 9 e
    | _ => false
    end) (list_ascii_of_string time_str).

(** [^:[0-5]\d$] *)
Definition re_minutely (time_str : string) : bool :=
  up_to_dollar (fun l =>
    match l with
    | [c; d; e] => is_colon c && digit_upto 5 d && digit_upto 9 e
    | _ => false
    end) (list_ascii_of_string time_str).

(** [time_str.split(":")] *)
Fixpoint split_colon (cur : list ascii) (l : list ascii) : list string :=
  match l with
  | [] => [string_of_list_ascii (rev cur)]
  | c :: l' =>
      if is_colon c then string_of_list_ascii (rev cur) :: split_colon [] l'
      else split_colon (c :: cur) l'
  end.

(** A value that is still a string or already an integer. *)
Inductive str_or_int : Type :=
  | Str (s : string)
  | Int (n : Z).

Definition is_space (c : ascii) : bool :=
  let n := nat_of_ascii c in
  ((9 <=? n) && (n <=? 13) || (n =? 32))%nat.

Fixpoint lstrip (l : list ascii) : list ascii :=
  match l with
  | c :: l' => if is_space c then lstrip l' else l
  | [] => []
  end.

Fixpoint digits_value (acc : Z) (l : list ascii) : option Z :=
  match l with
  | [] => Some acc
  | c :: l' =>
      if digit_upto 9 c
      then digits_value (10 * acc + Z.of_nat (nat_of_ascii c - 48)) l'
      else None
  end.

(** [int(x)] on an integer, or on a string of decimal digits surrounded
    by white space (signs and digit separators are not modelled: no
    string that passed one of the patterns above has them). *)
Definition py_int (x : str_or_int) : Res Z :=
  match x with
  | Int n => Ok n
  | Str s =>
      let l := lstrip (list_ascii_of_string s) in
      let l := rev (lstrip (rev l)) in
      match l with
      | [] => Raise ValueError
      | _ => match digits_value 0 l with
             | Some n => Ok n
             | None => Raise ValueError
             end
      end
  end.

(** The arguments of [at]: [time_str] is a string or something else; [tz]
    is [None], a zone name, a [pytz] time zone object or something else. *)
Inductive str_arg : Type :=
  | ArgStr (s : string)
  | ArgOther.

Inductive tz_arg : Type :=
  | TzNone
  | TzName (name : string)
  | TzInfo (tz : tzinfo)
  | TzOther.

Definition at_ (time_str : str_arg) (tz : tz_arg) : M JS NoneType :=
  j <- self ;;
  if negb (str_in (unit j) ["days"; "hours"; "minutes"]) && negb (truthy (start_day j))
  then raise ScheduleValueError else
  match tz with
  | TzNone => ret tt
  | TzName name =>
      z <- lift (pytz_timezone name) ;; set_self (set_at_time_zone (Some z))
  | TzInfo z => set_self (set_at_time_zone (Some z))
  | TzOther => raise ScheduleValueError
  end ;;;
  match time_str with
  | ArgOther => raise TypeError
  | ArgStr time_str =>
      if (str_is (unit j) "days" || truthy (start_day j)) && negb (re_daily time_str)
      then raise ScheduleValueError else
      if str_is (unit j) "hours" && negb (re_hourly time_str)
      then raise ScheduleValueError else
      if str_is (unit j) "minutes" && negb (re_minutely time_str)
      then raise ScheduleValueError else
      let time_values := split_colon [] (list_ascii_of_string time_str) in
      hms <- match time_values with
             | [h; m; s] => ret (Str h, Str m, Str s)
             | [a; b] =>
                 if str_is (unit j) "minutes" then ret (Int 0, Int 0, Str b)
                 else if str_is (unit j) "hours" && negb (a =? "")%string
                 then ret (Int 0, Str a, Str b)
                 else ret (Str a, Str b, Int 0)
             | _ => raise ValueError
             end ;;
      let hour := fst (fst hms) in
      let minute := snd (fst hms) in
      let second := snd hms in
      hm <- (if str_is (unit j) "days" || truthy (start_day j) then
               h <- lift (py_int hour) ;;
               if negb ((0 <=? h) && (h <=? 23)) then raise ScheduleValueError
               else ret (Int h, minute)
             else if str_is (unit j) "hours" then ret (Int 0, minute)
             else if str_is (unit j) "minutes" then ret (Int 0, Int 0)
             else ret (hour, minute)) ;;
      h <- lift (py_int (fst hm)) ;;
      m <- lift (py_int (snd hm)) ;;
      s <- lift (py_int second) ;;
      t <- lift (time_make h m s) ;;
      set_self (set_at_time (Some t))
  end.

(** *** [Job.until(until_time)] *)

Inductive until_arg : Type :=
  | UntilDatetime (d : datetime)
  | UntilTimedelta (td : timedelta)
  | UntilTime (t : time)
  | UntilStr (s : string)
  | UntilOther.

(** [Job._decode_datetimestr]: the first format that parses. *)
Fixpoint _decode_datetimestr (datetime_str : string) (formats : list string)
  : option datetime :=
  match formats with
  | [] => None
  | f :: formats' =>
      match strptime datetime_str f with
      | Some d => Some d
      | None => _decode_datetimestr datetime_str formats'
      end
  end.

Definition until_formats : list string :=
  ["%Y-%m-%d %H:%M:%S"; "%Y-%m-%d %H:%M"; "%Y-%m-%d"; "%H:%M:%S"; "%H:%M"].

Definition contains_dash (s : string) : bool :=
  existsb (fun c => (nat_of_ascii c =? 45)%nat) (list_ascii_of_string s).

(** [datetime.combine(date, time)]: the date of the first, the clock
    reading and the [tzinfo] of the second. *)
Definition dt_combine (date : datetime) (t : time) : datetime :=
  mk_datetime (dt_ticks date / DAY * DAY + t_us t) (t_tzinfo t).

(** [d.replace(year=now.year, month=now.month, day=now.day)] *)
Definition dt_replace_date (d now : datetime) : datetime :=
  mk_datetime (dt_ticks now / DAY * DAY + dt_ticks d mod DAY) (dt_tzinfo d).

Definition until (until_time : until_arg) : M JS NoneType :=
  match until_time with
  | UntilDatetime d => set_self (set_cancel_after (Some d))
  | UntilTimedelta td =>
      t <- scheduler_timestamp ;;
      now <- need t TypeError ;;
      d <- lift (dt_add now td) ;;
      set_self (set_cancel_after (Some d))
  | UntilTime tm =>
      t <- scheduler_timestamp ;;
      now <- need t TypeError ;;
      set_self (set_cancel_after (Some (dt_combine now tm)))
  | UntilStr s =>
      match _decode_datetimestr s until_formats with
      | None => raise ScheduleValueError
      | Some ca =>
          ca' <- (if negb (contains_dash s) then
                    (* a time-only format: the date is today *)
                    t <- scheduler_timestamp ;;
                    now <- need t AttributeError ;;
                    ret (dt_replace_date ca now)
                  else ret ca) ;;
          set_self (set_cancel_after (Some ca'))
      end
  | UntilOther => raise TypeError
  end ;;;
  j <- self ;;
  ca <- need (cancel_after j) TypeError ;;
  t <- scheduler_timestamp ;;
  now <- need t TypeError ;;
  past <- lift (dt_lt ca now) ;;
  if past then raise ScheduleValueError else ret tt.

(** ** Class [Scheduler] *)

Definition in_world {A} (m : M Env A) : M World A :=
  fun w => let (r, e') := m (env w) in (r, mk_World (heap w) e').

(** Run a method of the job object [r]; the object is updated in place. *)
Definition with_job {A} (r : job_ref) (m : M JS A) : M World A :=
  fun w => match heap w !! r with
           | None => (Raise ReferenceError, w)
           | Some j =>
               let (res, s) := m (j, env w) in
               (res, mk_World (<[r := fst s]> (heap w)) (snd s))
           end.

(** [list.remove(x)]: drop the first occurrence (a [ValueError] for an
    absent element is caught by the caller). *)
Fixpoint remove_first (x : job_ref) (l : list job_ref) : list job_ref :=
  match l with
  | [] => []
  | y :: l' => if decide (x = y) then l' else y :: remove_first x l'
  end.

(** [Scheduler.cancel_job(job)] *)
Definition cancel_job (job : job_ref) : M World NoneType :=
  in_world (modify (fun e =>
    set_sched (set_jobs (remove_first job (jobs (sched e))) (sched e)) e)).

(** [isinstance(ret, CancelJob) or ret is CancelJob] *)
Definition is_cancel (v : pyval) : bool :=
  match v with
  | PyCancelJobClass | PyCancelJobInstance => true
  | _ => false
  end.

(** [Scheduler._run_job(job)] *)
Definition _run_job (job : job_ref) : M World NoneType :=
  ret_ <- with_job job (run job) ;;
  if is_cancel ret_ then cancel_job job else ret tt.

(** [Job.__lt__(other)]: jobs are ordered by the time they run next. *)
Definition Job_lt (a b : job_ref) : M World bool :=
  fun w => match heap w !! a, heap w !! b with
           | Some ja, Some jb =>
               match next_run ja, next_run jb with
               | Some x, Some y => (dt_lt x y, w)
               | _, _ => (Raise TypeError, w)
               end
           | _, _ => (Raise ReferenceError, w)
           end.

(** The generator [(job for job in self.jobs if job.should_run)],
    consumed to its end. *)
Fixpoint runnable_jobs (l : list job_ref) : M World (list job_ref) :=
  match l with
  | [] => ret []
  | job :: l' =>
      b <- with_job job should_run ;;
      rest <- runnable_jobs l' ;;
      ret (if b then job :: rest else rest)
  end.

(** [sorted(..)] is a stable sort that only uses [__lt__].  It is
    modelled by the stable insertion sort: both produce the same list
    whenever [__lt__] orders the elements, as it does here. *)
Fixpoint insert_job (x : job_ref) (l : list job_ref) : M World (list job_ref) :=
  match l with
  | [] => ret [x]
  | y :: l' =>
      b <- Job_lt x y ;;
      if b then ret (x :: y :: l')
      else r <- insert_job x l' ;; ret (y :: r)
  end.

Fixpoint sorted_from (acc l : list job_ref) : M World (list job_ref) :=
  match l with
  | [] => ret acc
  | x :: l' => acc' <- insert_job x acc ;; sorted_from acc' l'
  end.

Definition sorted (l : list job_ref) : M World (list job_ref) := sorted_from [] l.

Fixpoint for_each (body : job_ref -> M World NoneType) (l : list job_ref)
  : M World NoneType :=
  match l with
  | [] => ret tt
  | x :: l' => body x ;;; for_each body l'
  end.

(** [Scheduler.run_pending()]: run all jobs that are scheduled to run. *)
Definition run_pending : M World NoneType :=
  js <- gets (fun w => jobs (sched (env w))) ;;
  runnable <- runnable_jobs js ;;
  ordered <- sorted runnable ;;
  for_each _run_job ordered.

(** [Scheduler.run_all(delay_seconds)]: [time.sleep] only lets real time
    pass; it rejects a negative delay. *)
Definition run_all (delay_seconds : Z) : M World NoneType :=
  js <- gets (fun w => jobs (sched (env w))) ;;
  for_each (fun job =>
              _run_job job ;;;
              if delay_seconds <? 0 then raise ValueError else ret tt) js.

Fixpoint jobs_tagged (keep : bool) (t : string) (l : list job_ref)
  : M World (list job_ref) :=
  match l with
  | [] => ret []
  | job :: l' =>
      tg <- with_job job (gets (fun s => tags (fst s))) ;;
      rest <- jobs_tagged keep t l' ;;
      ret (if bool_decide (bool_decide (t ∈ tg) = keep) then job :: rest else rest)
  end.

(** [Scheduler.get_jobs(tag)] *)
Definition get_jobs (tag : option string) : M World (list job_ref) :=
  js <- gets (fun w => jobs (sched (env w))) ;;
  match tag with
  | None => ret js
  | Some t => jobs_tagged true t js
  end.

(** [Scheduler.clear(tag)] *)
Definition clear (tag : option string) : M World NoneType :=
  js <- gets (fun w => jobs (sched (env w))) ;;
  kept <- match tag with
          | None => ret []
          | Some t => jobs_tagged false t js
          end ;;
  in_world (modify (fun e => set_sched (set_jobs kept (sched e)) e)).

(** [Scheduler.every(interval)]: a new, unconfigured job object. *)
Definition every (interval : Z) : M World job_ref :=
  fun w => let r := fresh (dom (heap w)) in
           (Ok r, mk_World (<[r := Job_init interval (Some the_scheduler)]> (heap w))
                    (env w)).

(** [min(..)] over jobs, with [__lt__]. *)
Fixpoint min_from (best : job_ref) (l : list job_ref) : M World job_ref :=
  match l with
  | [] => ret best
  | x :: l' => b <- Job_lt x best ;; min_from (if b then x else best) l'
  end.

(** [Scheduler.get_next_run(tag)] *)
Definition get_next_run (tag : option string) : M World (option datetime) :=
  js <- gets (fun w => jobs (sched (env w))) ;;
  match js with
  | [] => ret None
  | _ =>
      jobs_filtered <- get_jobs tag ;;
      match jobs_filtered with
      | [] => ret None
      | x :: l => m <- min_from x l ;; with_job m (gets (fun s => next_run (fst s)))
      end
  end.

(** [Scheduler.idle_seconds], as a time difference in microseconds. *)
Definition idle_seconds : M World (option timedelta) :=
  n <- get_next_run None ;;
  match n with
  | None => ret None
  | Some _ =>
      n <- get_next_run None ;;
      t <- in_world timestamp ;;
      match n, t with
      | Some n, Some t => d <- lift (dt_sub n t) ;; ret (Some d)
      | _, _ => raise TypeError
      end
  end.

End External.

(** A stand-in for the outside world, used to evaluate the model: every
    [tzinfo] is UTC-like, no zone name is known, no string parses as a
    date, and job function [f] returns the integer [f] (function [0]
    raises, function [1] asks to be cancelled). *)
Definition plain_externals : Externals := {|
  UTC := 0%nat;
  utcoffset := fun _ _ => 0;
  tz_normalize := fun _ d => Ok d;
  dt_astimezone := fun d tz => Ok (mk_datetime (dt_ticks d) (Some tz));
  pytz_timezone := fun _ => Raise UnknownTimeZoneError;
  dt_day := fun _ => 1;
  dt_replace_day := fun d _ => Ok d;
  strptime := fun _ _ => None;
  job_call := fun f _ =>
    match f with
    | O => Raise (JobFunctionError 0)
    | S O => Ok PyCancelJobClass
    | _ => Ok (PyInt (Z.of_nat f))
    end
|}.

(** A naive datetime given by its day number (day 0 is Monday
    0001-01-01) and clock reading. *)
Definition naive (day h m s us : Z) : datetime :=
  mk_datetime (day * DAY + clock_us h m s us) None.

(** A simulated-clock environment at instant [t] with no job registered,
    and one on the wall clock whose [n]-th reading is [t0 + n]
    microseconds. *)
Definition simulated_env (t : datetime) : Env :=
  mk_Env (mk_Scheduler [] false (Some t)) (fun _ => 0) 0 (fun _ => 0) 0 [].
Definition realtime_env (t0 : Z) : Env :=
  mk_Env (mk_Scheduler [] true None) (fun n => t0 + Z.of_nat n) 0 (fun _ => 0) 0 [].

(** The jobs on which [run] was entered and the functions that were
    invoked, in order. *)
Definition runs (t : list event) : list job_ref :=
  omap (fun ev => match ev with EvRun j => Some j | EvCall _ => None end) t.
Definition calls (t : list event) : list callable :=
  omap (fun ev => match ev with EvCall f => Some f | EvRun _ => None end) t.

(** A step that leaves the entered runs of the trace as they are. *)
Definition runs_kept (s s' : JS) : Prop :=
  runs (trace (snd s')) = runs (trace (snd s)).

(** What the next-run computation leaves alone: every attribute of the
    job except [period] and [next_run], the scheduler object, the oracles
    and the trace; the oracles are only consumed, and a [next_run] that
    was set is never reset to [None].  With [keep_period], [period] and
    the random source are left alone as well. *)
Record sched_frame (keep_period : bool) (s s' : JS) : Prop := mk_sched_frame {
  fr_interval : interval (fst s') = interval (fst s);
  fr_latest : latest (fst s') = latest (fst s);
  fr_job_func : job_func (fst s') = job_func (fst s);
  fr_unit : unit (fst s') = unit (fst s);
  fr_at_time : at_time (fst s') = at_time (fst s);
  fr_at_time_zone : at_time_zone (fst s') = at_time_zone (fst s);
  fr_last_run : last_run (fst s') = last_run (fst s);
  fr_start_day : start_day (fst s') = start_day (fst s);
  fr_cancel_after : cancel_after (fst s') = cancel_after (fst s);
  fr_tags : tags (fst s') = tags (fst s);
  fr_scheduler : scheduler (fst s') = scheduler (fst s);
  fr_sched : sched (snd s') = sched (snd s);
  fr_wall_clock : wall_clock (snd s') = wall_clock (snd s);
  fr_random_source : random_source (snd s') = random_source (snd s);
  fr_trace : trace (snd s') = trace (snd s);
  fr_clock_reads : (clock_reads (snd s) <= clock_reads (snd s'))%nat;
  fr_random_draws : (random_draws (snd s) <= random_draws (snd s'))%nat;
  fr_next_run : next_run (fst s) <> None -> next_run (fst s') <> None;
  fr_period : keep_period = true -> period (fst s') = period (fst s);
  fr_draws : keep_period = true -> random_draws (snd s') = random_draws (snd s)
}.

(** [m] relates the state it starts from and the state it ends in by [R],
    whether it returns or raises. *)
Definition preserves {S A} (R : S -> S -> Prop) (m : M S A) : Prop :=
  forall s r s', m s = (r, s') -> R s s'.

(** [m], when it returns, ends in a state that satisfies [Q]. *)
Definition establishes {S A} (Q : S -> Prop) (m : M S A) : Prop :=
  forall s a s', m s = (Ok a, s') -> Q s'.

(** The fields of a [time] are within their ranges. *)
Definition time_valid (t : time) : Prop :=
  0 <= t_hour t <= 23 /\ 0 <= t_minute t <= 59 /\ 0 <= t_second t <= 59
  /\ 0 <= t_microsecond t <= 999999.

(** The configuration that [every().day.at("10:30")] builds, and the one
    that [every().monday.at("12:00")] builds (see [every_day_at_1030_built]
    and [every_monday_at_noon_built] below). *)
Definition every_day_at_1030 : Job :=
  mk_Job 1 None None (Some "days"%string) (Some (mk_time 10 30 0 0 None))
    None None None None None None ∅ (Some the_scheduler).
Definition every_monday_at_noon : Job :=
  mk_Job 1 None None (Some "weeks"%string) (Some (mk_time 12 0 0 0 None))
    None None None None (Some "monday"%string) None ∅ (Some the_scheduler).

(** The units that [_schedule_next_run] accepts. *)
Definition valid_unit (u : option string) : bool :=
  str_in u ["seconds"; "minutes"; "hours"; "days"; "weeks"].

(** *** Sample jobs and programs *)

(** [every().seconds] bound to function [f], with or without deadline. *)
Definition every_second (f : callable) : Job :=
  set_job_func (Some f)
    (set_unit (Some "seconds"%string) (Job_init 1 (Some the_scheduler))).
Definition every_second_until (deadline : datetime) (f : callable) : Job :=
  set_cancel_after (Some deadline) (every_second f).



(** [job = every().seconds.do(f)], then [job.run()], on a scheduler that
    runs on the wall clock; the result is the job object. *)
Definition every_second_on_wall_clock `{Externals} : M World Job :=
  r <- every 1 ;;
  with_job r seconds ;;;
  with_job r (do_ r 2%nat) ;;;
  with_job r (run r) ;;;
  with_job r self.


(** A new scheduler on a simulated clock, without jobs. *)
Definition new_world (t : datetime) : World := mk_World ∅ (simulated_env t).

(** *** Due jobs

    The key by which [sorted] orders a job, the registered jobs that are
    due at [now], and the list that the insertion sort produces when all
    comparisons succeed. *)
Definition next_run_ticks (w : World) (r : job_ref) : Z :=
  match heap w !! r with
  | Some j => match next_run j with Some d => dt_ticks d | None => 0 end
  | None => 0
  end.

Definition is_due (w : World) (now : datetime) (r : job_ref) : bool :=
  next_run_ticks w r <=? dt_ticks now.

Definition due_jobs (w : World) (now : datetime) : list job_ref :=
  List.filter (is_due w now) (jobs (sched (env w))).

Fixpoint insert_by (key : job_ref -> Z) (x : job_ref) (l : list job_ref)
  : list job_ref :=
  match l with
  | [] => [x]
  | y :: l' => if key x <? key y then x :: y :: l' else y :: insert_by key x l'
  end.

Fixpoint sort_from_by (key : job_ref -> Z) (acc l : list job_ref) : list job_ref :=
  match l with
  | [] => acc
  | x :: l' => sort_from_by key (insert_by key x acc) l'
  end.

(** The registered jobs are job objects of this scheduler whose
    [next_run] is set and carries the [tzinfo] [tz]. *)
Definition comparable_jobs (w : World) (tz : option tzinfo) : Prop :=
  forall r, r ∈ jobs (sched (env w)) ->
    exists j nr, heap w !! r = Some j /\ scheduler j = Some the_scheduler
                 /\ next_run j = Some nr /\ dt_tzinfo nr = tz.

(** [job = every().monday.at("12:00").do(f)], then the simulated clock
    is set to [t] and [run_pending()] is called twice. *)
Definition monday_noon_job_polled_twice `{Externals} (t : datetime) : M World NoneType :=
  r <- every 1 ;;
  with_job r monday ;;;
  with_job r (at_ (ArgStr "12:00") TzNone) ;;;
  with_job r (do_ r 2%nat) ;;;
  in_world (set_timestamp t) ;;;
  run_pending ;;;
  run_pending.

(** [job = every().day.at("10:30").do(f)], then the simulated clock is
    set to [t]. *)
Definition daily_job_at `{Externals} (t : datetime) : M World NoneType :=
  r <- every 1 ;;
  with_job r day ;;;
  with_job r (at_ (ArgStr "10:30") TzNone) ;;;
  with_job r (do_ r 2%nat) ;;;
  in_world (set_timestamp t).

(** The environment after an event was recorded. *)
Definition logged (ev : event) (e : Env) : Env := set_trace (trace e ++ [ev]) e.

(** *** The interface of the module

    What a client can call on a job object and on the scheduler; the
    states that such calls can lead to are the [reachable] ones. *)
Inductive job_method : Type :=
  | Second | Seconds | Minute | Minutes | Hour | Hours | Day | Days
  | Week | Weeks
  | Monday | Tuesday | Wednesday | Thursday | Friday | Saturday | Sunday
  | Tag (tags : list pytag)
  | At (time_str : str_arg) (tz : tz_arg)
  | To (latest : Z)
  | Until (until_time : until_arg)
  | Do (f : callable)
  | ShouldRun
  | Run.

Inductive api_call : Type :=
  | Every (interval : Z)
  | OnJob (job : job_ref) (m : job_method)
  | RunPending
  | RunAll (delay_seconds : Z)
  | GetJobs (tag : option string)
  | Clear (tag : option string)
  | CancelJob (job : job_ref)
  | GetNextRun (tag : option string)
  | IdleSeconds
  | GetTimestamp
  | SetTimestamp (t : datetime).

Section Interface.

Context `{Externals}.

Definition call_method (me : job_ref) (m : job_method) : M JS NoneType :=
  match m with
  | Second => second | Seconds => seconds
  | Minute => minute | Minutes => minutes
  | Hour => hour | Hours => hours
  | Day => day | Days => days
  | Week => week | Weeks => weeks
  | Monday => monday | Tuesday => tuesday | Wednesday => wednesday
  | Thursday => thursday | Friday => friday | Saturday => saturday
  | Sunday => sunday
  | Tag tags => tag tags
  | At time_str tz => at_ time_str tz
  | To latest => to latest
  | Until until_time => until until_time
  | Do f => do_ me f
  | ShouldRun => should_run ;;; ret tt
  | Run => run me ;;; ret tt
  end.

Definition call_api (c : api_call) : M World NoneType :=
  match c with
  | Every interval => every interval ;;; ret tt
  | OnJob job m => with_job job (call_method job m)
  | RunPending => run_pending
  | RunAll delay_seconds => run_all delay_seconds
  | GetJobs tag => get_jobs tag ;;; ret tt
  | Clear tag => clear tag
  | CancelJob job => cancel_job job
  | GetNextRun tag => get_next_run tag ;;; ret tt
  | IdleSeconds => idle_seconds ;;; ret tt
  | GetTimestamp => in_world timestamp ;;; ret tt
  | SetTimestamp t => in_world (set_timestamp t)
  end.

(** A new scheduler has no jobs; every call leads to a reachable state,
    whether it returns or raises. *)
Inductive reachable : World -> Prop :=
  | reachable_new (is_realtime : bool) (start_timestamp : option datetime)
      (s : Scheduler) (wall random : nat -> Z) :
      Scheduler_init is_realtime start_timestamp = Ok s ->
      reachable (mk_World ∅ (mk_Env s wall 0 random 0 []))
  | reachable_call (w w' : World) (c : api_call) (r : Res NoneType) :
      reachable w -> call_api c w = (r, w') -> reachable w'.

End Interface.

(** What no call undoes: a job object stays in the heap, with its
    [next_run] still set if it was; and a job that enters the scheduler's
    list has [next_run] set.  [job_frame me] is the same for a method of
    the job object [me]. *)
Definition world_frame (w w' : World) : Prop :=
  (forall r j, heap w !! r = Some j ->
     exists j', heap w' !! r = Some j' /\ (next_run j <> None -> next_run j' <> None))
  /\ (forall r, r ∈ jobs (sched (env w')) ->
        r ∈ jobs (sched (env w))
        \/ exists j', heap w' !! r = Some j' /\ next_run j' <> None).

Definition job_frame (me : job_ref) (s s' : JS) : Prop :=
  (next_run (fst s) <> None -> next_run (fst s') <> None)
  /\ (forall r, r ∈ jobs (sched (snd s')) ->
        r ∈ jobs (sched (snd s)) \/ (r = me /\ next_run (fst s') <> None)).

(** Every job in the scheduler's list has its [next_run] computed. *)
Definition registered_have_next_run (w : World) : Prop :=
  forall r, r ∈ jobs (sched (env w)) ->
    exists j nr, heap w !! r = Some j /\ next_run j = Some nr.

(** *** Running the pending jobs again *)

(** The blocks that follow the first assignment of [next_run]. *)
Definition anchors `{Externals} (now : datetime) (p : timedelta) : M JS NoneType :=
  weekday_anchor p ;;; normalize_next_run ;;; clock_anchor now p ;;;
  same_week now p ;;; to_native.

(** A job is anchored in one way at most when it does not combine a
    weekday with a time of day; the time zone of [at()] is left out. *)
Definition singly_anchored (j : Job) : bool :=
  (1 <=? interval j) && is_None (at_time_zone j)
  && (is_None (start_day j) || is_None (at_time j)).

(** How often [r] occurs in a list of jobs. *)
Definition occurrences (r : job_ref) (l : list job_ref) : nat :=
  count_occ Nat.eq_dec l r.

(** Between two runs of the loop of [run_pending]: [J0] are the jobs
    registered when the loop was entered, [rest] the jobs it still has to
    run.  A job that is due occurs in [rest] at least as often as in the
    scheduler's list. *)
Definition settled (now : datetime) (J0 rest : list job_ref) (w : World) : Prop :=
  is_realtime (sched (env w)) = false
  /\ _timestamp (sched (env w)) = Some now
  /\ (forall r, r ∈ jobs (sched (env w)) -> r ∈ J0)
  /\ (forall r, r ∈ J0 ->
        exists j nr, heap w !! r = Some j /\ scheduler j = Some the_scheduler
                     /\ singly_anchored j = true
                     /\ next_run j = Some nr /\ dt_tzinfo nr = dt_tzinfo now)
  /\ (forall r, is_due w now r = true ->
        (occurrences r (jobs (sched (env w))) <= occurrences r rest)%nat).

(** * Properties *)

Section Properties.

Context `{Externals}.

(** ** Reasoning in the monad *)

Lemma bind_inv {S A B} (m : M S A) (k : A -> M S B) s r s'' :
  bind m k s = (r, s'') ->
  (exists a s', m s = (Ok a, s') /\ k a s' = (r, s''))
  \/ (exists x, m s = (Raise x, s'') /\ r = Raise x).
Proof.
  unfold bind. destruct (m s) as [[a|x] s'] eqn:E; intros Hk.
  - left. eauto.
  - right. inversion Hk; subst. eauto.
Qed.

Lemma bind_ok {S A B} (m : M S A) (k : A -> M S B) s a s' :
  m s = (Ok a, s') -> bind m k s = k a s'.
Proof. unfold bind. by intros ->. Qed.

Lemma bind_raise {S A B} (m : M S A) (k : A -> M S B) s x s' :
  m s = (Raise x, s') -> bind m k s = (Raise x, s').
Proof. unfold bind. by intros ->. Qed.

Section Preservation.

Context {S : Type} (R : S -> S -> Prop).
Hypothesis R_refl : forall s, R s s.
Hypothesis R_trans : forall s1 s2 s3, R s1 s2 -> R s2 s3 -> R s1 s3.

Lemma preserves_ret {A} (a : A) : preserves R (ret a).
Proof. intros s r s' [= _ <-]. apply R_refl. Qed.

Lemma preserves_raise {A} x : preserves R (raise (A := A) x).
Proof. intros s r s' [= _ <-]. apply R_refl. Qed.

Lemma preserves_lift {A} (x : Res A) : preserves R (lift x).
Proof. intros s r s' [= _ <-]. apply R_refl. Qed.

Lemma preserves_gets {A} (f : S -> A) : preserves R (gets f).
Proof. intros s r s' [= _ <-]. apply R_refl. Qed.

Lemma preserves_need {A} (o : option A) x : preserves R (need o x).
Proof. destruct o; [apply preserves_ret | apply preserves_raise]. Qed.

Lemma preserves_bind {A B} (m : M S A) (k : A -> M S B) :
  preserves R m -> (forall a, preserves R (k a)) -> preserves R (bind m k).
Proof.
  intros Hm Hk s r s'' Hb. destruct (bind_inv _ _ _ _ _ Hb) as
    [(a & s' & H1 & H2) | (x & H1 & _)].
  - eapply R_trans; [eapply Hm | eapply Hk]; eassumption.
  - eapply Hm; eassumption.
Qed.

End Preservation.

Lemma establishes_bind_r {S A B} (Q : S -> Prop) (m : M S A) (k : A -> M S B) :
  (forall a, establishes Q (k a)) -> establishes Q (bind m k).
Proof.
  intros Hk s b s'' Hb. destruct (bind_inv _ _ _ _ _ Hb) as
    [(a & s' & H1 & H2) | (x & _ & Hx)]; [|discriminate].
  eapply Hk; eassumption.
Qed.

Lemma establishes_bind_l {S A B} (Q : S -> Prop) (R : S -> S -> Prop)
    (m : M S A) (k : A -> M S B) :
  establishes Q m -> (forall a, preserves R (k a)) ->
  (forall s s', Q s -> R s s' -> Q s') ->
  establishes Q (bind m k).
Proof.
  intros Hm Hk HQ s b s'' Hb. destruct (bind_inv _ _ _ _ _ Hb) as
    [(a & s' & H1 & H2) | (x & _ & Hx)]; [|discriminate].
  eapply HQ; [eapply Hm | eapply Hk]; eassumption.
Qed.

(** ** The frame of the next-run computation *)

Section Frame.

Variable kp : bool.

Lemma sched_frame_refl s : sched_frame kp s s.
Proof. by constructor. Qed.

Lemma sched_frame_trans s1 s2 s3 :
  sched_frame kp s1 s2 -> sched_frame kp s2 s3 -> sched_frame kp s1 s3.
Proof.
  intros H1 H2. constructor;
    try (etransitivity; [apply H2 | apply H1]; fail).
  - etransitivity; [apply H1 | apply H2].
  - etransitivity; [apply H1 | apply H2].
  - intros Hn. apply H2, H1, Hn.
  - intros Hk. etransitivity; [by apply H2 | by apply H1].
  - intros Hk. etransitivity; [by apply H2 | by apply H1].
Qed.

Lemma frame_self : preserves (sched_frame kp) self.
Proof. apply preserves_gets, sched_frame_refl. Qed.

Lemma frame_set_next_run d :
  preserves (sched_frame kp) (set_self (set_next_run (Some d))).
Proof. intros [j e] r s' [= _ <-]. by constructor. Qed.

Lemma frame_timestamp : preserves (sched_frame kp) (in_env timestamp).
Proof.
  intros [j e] r s'. unfold in_env, timestamp. simpl.
  destruct (is_realtime (sched e)); intros [= _ <-]; constructor; simpl; auto.
Qed.

Lemma frame_scheduler_timestamp : preserves (sched_frame kp) scheduler_timestamp.
Proof.
  unfold scheduler_timestamp.
  apply preserves_bind; [apply sched_frame_trans | apply frame_self |].
  intros j. destruct (scheduler j).
  - apply frame_timestamp.
  - apply preserves_raise, sched_frame_refl.
Qed.

(** One syntax-directed step of a frame proof. *)
Ltac frame_step :=
  lazymatch goal with
  | |- preserves _ (bind _ _) =>
      apply preserves_bind; [apply sched_frame_trans | | intros ?]
  | |- preserves _ (ret _) => apply preserves_ret, sched_frame_refl
  | |- preserves _ (raise _) => apply preserves_raise, sched_frame_refl
  | |- preserves _ (lift _) => apply preserves_lift, sched_frame_refl
  | |- preserves _ (need _ _) => apply preserves_need, sched_frame_refl
  | |- preserves _ self => apply frame_self
  | |- preserves _ scheduler_timestamp => apply frame_scheduler_timestamp
  | |- preserves _ (set_self (set_next_run (Some _))) => apply frame_set_next_run
  | |- preserves _ (match ?x with _ => _ end) => destruct x
  end.

Lemma frame_the_next_run : preserves (sched_frame kp) the_next_run.
Proof. unfold the_next_run. repeat frame_step. Qed.

Lemma frame_reference_now : preserves (sched_frame kp) reference_now.
Proof. unfold reference_now. repeat frame_step. Qed.

Lemma frame_weekday_anchor p : preserves (sched_frame kp) (weekday_anchor p).
Proof.
  unfold weekday_anchor. repeat (frame_step || apply frame_the_next_run).
Qed.

Lemma frame_normalize_next_run : preserves (sched_frame kp) normalize_next_run.
Proof.
  unfold normalize_next_run. repeat (frame_step || apply frame_the_next_run).
Qed.

Lemma frame__to_at_timezone o : preserves (sched_frame kp) (_to_at_timezone o).
Proof. unfold _to_at_timezone. repeat frame_step. Qed.

Lemma frame_clock_anchor now p : preserves (sched_frame kp) (clock_anchor now p).
Proof.
  unfold clock_anchor.
  repeat (frame_step || apply frame_the_next_run || apply frame__to_at_timezone).
Qed.

Lemma frame_same_week now p : preserves (sched_frame kp) (same_week now p).
Proof.
  unfold same_week. repeat (frame_step || apply frame_the_next_run).
Qed.

Lemma frame_to_native : preserves (sched_frame kp) to_native.
Proof.
  intros [j e] r s'. unfold to_native, _normalize_preserve_timestamp, bind, self,
    gets, lift, ret, set_self, modify. simpl.
  destruct (at_time_zone j) as [tz|] eqn:Htz;
    [|intros [= _ <-]; apply sched_frame_refl].
  destruct (next_run j) as [d|] eqn:Hnr; simpl; rewrite ?Htz.
  - destruct (tz_normalize tz d) as [n|]; simpl;
      [|intros [= _ <-]; apply sched_frame_refl].
    destruct (dt_replace_day n (dt_day d)) as [n'|]; simpl;
      [|intros [= _ <-]; apply sched_frame_refl].
    destruct (dt_replace n' _ _ _ _); simpl; intros [= _ <-];
      [by constructor | apply sched_frame_refl].
  - intros [= _ <-]. by constructor.
Qed.

(** The blocks of the method that follow the first assignment of
    [next_run]. *)
Lemma frame_tail now p :
  preserves (sched_frame kp)
    (weekday_anchor p ;;; normalize_next_run ;;; clock_anchor now p ;;;
     same_week now p ;;; to_native).
Proof.
  repeat (frame_step
          || apply frame_weekday_anchor || apply frame_normalize_next_run
          || apply frame_clock_anchor || apply frame_same_week
          || apply frame_to_native).
Qed.

End Frame.

Lemma frame_randint a b : preserves (sched_frame false) (in_env (randint a b)).
Proof.
  intros [j e] r s'. unfold in_env, randint. simpl.
  destruct (b <? a); intros [= _ <-]; constructor; simpl; auto; discriminate.
Qed.

Lemma frame_effective_interval : preserves (sched_frame false) effective_interval.
Proof.
  unfold effective_interval.
  apply preserves_bind; [apply sched_frame_trans | apply frame_self | intros j].
  destruct (latest j); [|apply preserves_ret, sched_frame_refl].
  destruct (negb _); [apply preserves_raise, sched_frame_refl | apply frame_randint].
Qed.

Lemma frame_set_period p : preserves (sched_frame false) (set_self (set_period p)).
Proof. intros [j e] r s' [= _ <-]. by constructor. Qed.

(** The next-run computation only writes [period] and [next_run], and
    never resets [next_run] to [None], whether it returns or raises. *)
Lemma frame__schedule_next_run : preserves (sched_frame false) _schedule_next_run.
Proof.
  unfold _schedule_next_run.
  apply preserves_bind; [apply sched_frame_trans | apply frame_self | intros j].
  destruct (negb _); [apply preserves_raise, sched_frame_refl|].
  apply preserves_bind;
    [apply sched_frame_trans | apply frame_effective_interval | intros k].
  apply preserves_bind;
    [apply sched_frame_trans | apply frame_reference_now | intros now].
  apply preserves_bind;
    [apply sched_frame_trans | apply preserves_lift, sched_frame_refl | intros p].
  apply preserves_bind;
    [apply sched_frame_trans | apply frame_set_period | intros _].
  apply preserves_bind;
    [apply sched_frame_trans | apply preserves_need, sched_frame_refl | intros now'].
  apply preserves_bind;
    [apply sched_frame_trans | apply preserves_lift, sched_frame_refl | intros nr].
  apply preserves_bind;
    [apply sched_frame_trans | apply frame_set_next_run | intros _].
  apply frame_tail.
Qed.

(** When the next-run computation returns, [next_run] is set. *)
Lemma _schedule_next_run_sets_next_run :
  establishes (fun s : JS => next_run (fst s) <> None) _schedule_next_run.
Proof.
  unfold _schedule_next_run.
  apply establishes_bind_r; intros j.
  destruct (negb _); [intros s a s'; discriminate|].
  do 6 (apply establishes_bind_r; intros ?).
  eapply establishes_bind_l with (R := sched_frame false).
  - intros [j0 e0] [] s' [= <-]. simpl. discriminate.
  - intros _. apply frame_tail.
  - intros s s' HQ Hfr. by apply Hfr.
Qed.

(** ** [Job.run] *)

(** Unfold the monad, and nothing else. *)
Ltac mred :=
  cbv beta iota delta [bind log self gets set_self modify ret lift need raise
                       fst snd].

Lemma scheduler_timestamp_eq (j : Job) (e e1 : Env) r sr :
  scheduler j = Some sr -> timestamp e = (r, e1) ->
  scheduler_timestamp (j, e) = (r, (j, e1)).
Proof.
  intros Hs Ht. unfold scheduler_timestamp, bind, self, gets, in_env. simpl.
  rewrite Hs. simpl. by rewrite Ht.
Qed.

Lemma timestamp_trace (e e1 : Env) r : timestamp e = (r, e1) -> trace e1 = trace e.
Proof.
  unfold timestamp. destruct (is_realtime (sched e)); by intros [= _ <-].
Qed.

Lemma calls_app (t1 t2 : list event) : calls (t1 ++ t2) = calls t1 ++ calls t2.
Proof. apply omap_app. Qed.

Lemma runs_app (t1 t2 : list event) : runs (t1 ++ t2) = runs t1 ++ runs t2.
Proof. apply omap_app. Qed.

Lemma _is_overdue_state when (s : JS) r s' : _is_overdue when s = (r, s') -> s' = s.
Proof.
  destruct s as [j e]. unfold _is_overdue, bind, self, gets, need, lift, ret, raise.
  simpl. destruct (cancel_after j); [destruct when|]; simpl; by intros [= _ <-].
Qed.

Lemma _is_overdue_frame when (j j' : Job) (e e' : Env) :
  cancel_after j' = cancel_after j ->
  fst (_is_overdue when (j', e')) = fst (_is_overdue when (j, e)).
Proof.
  intros Hc. unfold _is_overdue, bind, self, gets, need, lift, ret, raise. simpl.
  rewrite Hc. destruct (cancel_after j); [destruct when|]; reflexivity.
Qed.

Lemma timestamp_sched (e e1 : Env) r : timestamp e = (r, e1) -> sched e1 = sched e.
Proof.
  unfold timestamp. destruct (is_realtime (sched e)); by intros [= _ <-].
Qed.

(** The three ways through [run]: overdue on entry, the bound function
    raises, the bound function returns. *)
Lemma run_overdue (me : job_ref) (j : Job) (e e1 : Env) (now : option datetime) :
  scheduler j = Some the_scheduler ->
  timestamp (logged (EvRun me) e) = (Ok now, e1) ->
  _is_overdue now (j, e1) = (Ok true, (j, e1)) ->
  run me (j, e) = (Ok PyCancelJobClass, (j, e1)).
Proof.
  intros Hs Ht Hov.
  pose proof (scheduler_timestamp_eq j _ _ _ _ Hs Ht) as Hst.
  unfold run. mred. fold (logged (EvRun me) e). rewrite Hst. mred.
  by rewrite Hov.
Qed.

Lemma run_raises (me : job_ref) (j : Job) (e e1 : Env) (now : option datetime) f x :
  scheduler j = Some the_scheduler ->
  timestamp (logged (EvRun me) e) = (Ok now, e1) ->
  _is_overdue now (j, e1) = (Ok false, (j, e1)) ->
  job_func j = Some f ->
  job_call f (trace e1 ++ [EvCall f]) = Raise x ->
  run me (j, e) = (Raise x, (j, logged (EvCall f) e1)).
Proof.
  intros Hs Ht Hov Hf Hcall.
  pose proof (scheduler_timestamp_eq j _ _ _ _ Hs Ht) as Hst.
  unfold run. mred. fold (logged (EvRun me) e). rewrite Hst. mred.
  rewrite Hov. mred. rewrite Hf. mred. fold (logged (EvCall f) e1).
  change (trace (logged (EvCall f) e1)) with (trace e1 ++ [EvCall f]).
  by rewrite Hcall.
Qed.

Lemma run_returns (me : job_ref) (j : Job) (e e1 : Env) (now : option datetime)
    f v t2 e2 j' e' late :
  scheduler j = Some the_scheduler ->
  timestamp (logged (EvRun me) e) = (Ok now, e1) ->
  _is_overdue now (j, e1) = (Ok false, (j, e1)) ->
  job_func j = Some f ->
  job_call f (trace e1 ++ [EvCall f]) = Ok v ->
  timestamp (logged (EvCall f) e1) = (Ok t2, e2) ->
  _schedule_next_run (set_last_run t2 j, e2) = (Ok tt, (j', e')) ->
  _is_overdue (next_run j') (j', e') = (Ok late, (j', e')) ->
  run me (j, e) = (Ok (if late then PyCancelJobClass else v), (j', e')).
Proof.
  intros Hs Ht Hov Hf Hcall Ht2 Hsch Hlate.
  pose proof (scheduler_timestamp_eq j _ _ _ _ Hs Ht) as Hst.
  pose proof (scheduler_timestamp_eq j _ _ _ _ Hs Ht2) as Hst2.
  unfold run. mred. fold (logged (EvRun me) e). rewrite Hst. mred.
  rewrite Hov. mred. rewrite Hf. mred. fold (logged (EvCall f) e1).
  change (trace (logged (EvCall f) e1)) with (trace e1 ++ [EvCall f]).
  rewrite Hcall, Hst2. mred. rewrite Hsch. mred. rewrite Hlate.
  by destruct late.
Qed.

(** C1: [Job.run()].  Let [now] be the scheduler's instant read on entry.
    If [now] is strictly after [cancel_after], [run] returns [CancelJob]
    at once: the bound function is not invoked and the job is unchanged
    (in particular [last_run] and [next_run]).  Otherwise the bound
    function is invoked once; when it returns [v], [last_run] becomes
    the current instant, [next_run] is recomputed, and [run] returns
    [CancelJob] if the new [next_run] is strictly after [cancel_after]
    and [v] unchanged if it is not. *)
Theorem run_contract (me : job_ref) (j : Job) (e e1 : Env) (now : option datetime) :
  scheduler j = Some the_scheduler ->
  timestamp (logged (EvRun me) e) = (Ok now, e1) ->
  (_is_overdue now (j, e1) = (Ok true, (j, e1)) ->
     run me (j, e) = (Ok PyCancelJobClass, (j, e1))
     /\ calls (trace e1) = calls (trace e))
  /\
  (_is_overdue now (j, e1) = (Ok false, (j, e1)) ->
   forall f v t2 e2 j' e',
     job_func j = Some f ->
     job_call f (trace e1 ++ [EvCall f]) = Ok v ->
     timestamp (logged (EvCall f) e1) = (Ok t2, e2) ->
     _schedule_next_run (set_last_run t2 j, e2) = (Ok tt, (j', e')) ->
     forall late, _is_overdue (next_run j') (j', e') = (Ok late, (j', e')) ->
       run me (j, e) = (Ok (if late then PyCancelJobClass else v), (j', e'))
       /\ last_run j' = t2
       /\ calls (trace e') = calls (trace e) ++ [f]
       /\ cancel_after j' = cancel_after j).
Proof.
  intros Hs Ht. split.
  - intros Hov. split.
    + by apply run_overdue with now.
    + rewrite (timestamp_trace _ _ _ Ht). simpl.
      rewrite calls_app. simpl. apply app_nil_r.
  - intros Hov f v t2 e2 j' e' Hf Hcall Ht2 Hsch late Hlate.
    pose proof (frame__schedule_next_run _ _ _ Hsch) as Hfr.
    split; [|split; [|split]].
    + by eapply run_returns.
    + apply (fr_last_run _ _ _ Hfr).
    + pose proof (fr_trace _ _ _ Hfr) as Htr. simpl in Htr. rewrite Htr.
      rewrite (timestamp_trace _ _ _ Ht2). simpl.
      rewrite (timestamp_trace _ _ _ Ht). simpl.
      rewrite !calls_app. simpl. by rewrite app_nil_r.
    + apply (fr_cancel_after _ _ _ Hfr).
Qed.

(** ** Scheduler methods on a job object *)

Lemma with_job_eq {A} (r : job_ref) (m : M JS A) (w : World) j res j' e' :
  heap w !! r = Some j -> m (j, env w) = (res, (j', e')) ->
  with_job r m w = (res, mk_World (<[r := j']> (heap w)) e').
Proof. intros Hj Hm. unfold with_job. by rewrite Hj, Hm. Qed.

(** C8: when the bound job function raises, the exception leaves
    [Job.run], [Scheduler._run_job] and the loop over the jobs; the job
    object is exactly as before the run ([last_run] and [next_run]
    included): only the trace and the clock reading on entry have moved,
    neither the reschedule nor the second overdue check took place. *)
Theorem job_function_raises (me : job_ref) (w : World) (j : Job) (e1 : Env)
    (now : option datetime) (f : callable) (x : exn) (rest : list job_ref) :
  heap w !! me = Some j ->
  scheduler j = Some the_scheduler ->
  timestamp (logged (EvRun me) (env w)) = (Ok now, e1) ->
  _is_overdue now (j, e1) = (Ok false, (j, e1)) ->
  job_func j = Some f ->
  job_call f (trace e1 ++ [EvCall f]) = Raise x ->
  let w' := mk_World (heap w) (logged (EvCall f) e1) in
  run me (j, env w) = (Raise x, (j, env w'))
  /\ _run_job me w = (Raise x, w')
  /\ for_each _run_job (me :: rest) w = (Raise x, w')
  /\ heap w' !! me = Some j
  /\ jobs (sched (env w')) = jobs (sched (env w))
  /\ random_draws (env w') = random_draws e1
  /\ clock_reads (env w') = clock_reads e1.
Proof.
  intros Hj Hs Ht Hov Hf Hcall w'.
  pose proof (run_raises me j _ _ _ _ _ Hs Ht Hov Hf Hcall) as Hrun.
  assert (Hrj : _run_job me w = (Raise x, w')).
  { unfold _run_job. apply bind_raise.
    rewrite (with_job_eq _ _ _ _ _ _ _ Hj Hrun). by rewrite insert_id. }
  repeat split; try done.
  - simpl. by apply bind_raise.
  - simpl. by rewrite (timestamp_sched _ _ _ Ht).
Qed.

(** ** The next-run computation *)

(** A job without [latest], without anchors and without time zone: the
    next run is the reference instant plus [interval] units. *)
Lemma _schedule_next_run_plain (j : Job) (e e1 : Env) (now nr : datetime) p sr :
  scheduler j = Some sr ->
  timestamp e = (Ok (Some now), e1) ->
  valid_unit (unit j) = true ->
  latest j = None -> at_time j = None -> start_day j = None ->
  at_time_zone j = None ->
  td_of_unit (default "" (unit j)) (interval j) = Ok p ->
  dt_add now p = Ok nr ->
  _schedule_next_run (j, e)
  = (Ok tt, (set_next_run (Some nr) (set_period (Some p) j), e1)).
Proof.
  intros Hs Ht Hu Hl Hat Hsd Htz Hp Hnr.
  pose proof (scheduler_timestamp_eq j _ _ _ _ Hs Ht) as Hst.
  unfold _schedule_next_run. mred. fold (valid_unit (unit j)). rewrite Hu.
  cbn [negb]. unfold effective_interval, reference_now. mred.
  rewrite Hl, Htz, Hst, Hp. mred. rewrite Hnr.
  unfold weekday_anchor, normalize_next_run, clock_anchor, same_week, to_native.
  repeat (progress (mred; cbn [start_day at_time at_time_zone next_run
                               set_next_run set_period not_None is_None
                               negb andb];
                    rewrite ?Hsd, ?Htz, ?Hat)).
  reflexivity.
Qed.


Lemma timestamp_simulated (e : Env) :
  is_realtime (sched e) = false -> timestamp e = (Ok (_timestamp (sched e)), e).
Proof. unfold timestamp. by intros ->. Qed.

Lemma td_of_unit_valid (u : string) (n : Z) p :
  td_of_unit u n = Ok p -> valid_unit (Some u) = true.
Proof.
  unfold td_of_unit, valid_unit, str_in. simpl.
  repeat (destruct (_ =? _)%string; [reflexivity|]). discriminate.
Qed.

Lemma td_make_inv (x y : Z) : td_make x = Ok y -> y = x.
Proof. unfold td_make. destruct (_ && _); [|discriminate]. by intros [= <-]. Qed.

Lemma td_make_in_range (x : Z) :
  - MAXDELTADAYS <= x / DAY <= MAXDELTADAYS -> td_make x = Ok x.
Proof.
  intros Hr. unfold td_make.
  destruct (Z.leb_spec (- MAXDELTADAYS) (x / DAY)); [|lia].
  destruct (Z.leb_spec (x / DAY) MAXDELTADAYS); [|lia].
  reflexivity.
Qed.

(** [n] units last [n] times as long as one unit. *)
Lemma td_of_unit_scale (u : string) (n d : Z) :
  td_of_unit u 1 = Ok d ->
  - MAXDELTADAYS <= n * d / DAY <= MAXDELTADAYS ->
  td_of_unit u n = Ok (n * d).
Proof.
  unfold td_of_unit.
  repeat (destruct (_ =? _)%string;
          [intros Hd Hr; apply td_make_inv in Hd; rewrite Z.mul_1_l in Hd;
           subst d; by apply td_make_in_range|]).
  discriminate.
Qed.

Lemma td_of_unit_pos (u : string) (d : Z) : td_of_unit u 1 = Ok d -> 0 < d.
Proof.
  unfold td_of_unit.
  repeat (destruct (_ =? _)%string;
          [intros Hd; apply td_make_inv in Hd; by subst d|]).
  discriminate.
Qed.

Lemma dt_cmp_same_tz (a a' c : datetime) :
  dt_tzinfo a' = dt_tzinfo a -> is_Ok (dt_cmp a c) = true -> is_Ok (dt_cmp a' c) = true.
Proof.
  unfold dt_cmp. intros ->.
  destruct (dt_tzinfo a), (dt_tzinfo c); try done.
  destruct (decide _); [done|]. by repeat destruct (_ =? _).
Qed.

Lemma dt_gt_same_tz (a a' c : datetime) b :
  dt_tzinfo a' = dt_tzinfo a -> dt_gt a c = Ok b -> exists b', dt_gt a' c = Ok b'.
Proof.
  intros Htz. unfold dt_gt. intros Hc.
  pose proof (dt_cmp_same_tz a a' c Htz) as Hok.
  destruct (dt_cmp a c); [|discriminate].
  destruct (dt_cmp a' c); [|by discriminate Hok]. simpl. eauto.
Qed.

Lemma dt_sub_same_tz (a b : datetime) :
  dt_tzinfo a = dt_tzinfo b -> dt_sub a b = Ok (dt_ticks a - dt_ticks b).
Proof.
  unfold dt_sub. intros ->. destruct (dt_tzinfo b); [|done].
  by destruct (decide _).
Qed.

Lemma dt_add_in_range (a : datetime) td :
  0 <= dt_ticks a + td < MAXORDINAL * DAY ->
  dt_add a td = Ok (mk_datetime (dt_ticks a + td) (dt_tzinfo a)).
Proof.
  intros Hr. unfold dt_add.
  destruct (Z.leb_spec 0 (dt_ticks a + td)); [|lia].
  destruct (Z.ltb_spec (dt_ticks a + td) (MAXORDINAL * DAY)); [|lia].
  reflexivity.
Qed.

(** The overdue test only depends on [cancel_after] and on the instant. *)
Lemma _is_overdue_eq when (j j' : Job) (e e' : Env) r :
  cancel_after j' = cancel_after j ->
  fst (_is_overdue when (j, e)) = r ->
  _is_overdue when (j', e') = (r, (j', e')).
Proof.
  intros Hc <-. rewrite <- (_is_overdue_frame when j j' e e' Hc).
  destruct (_is_overdue when (j', e')) as [r s] eqn:E.
  by rewrite (_is_overdue_state _ _ _ _ E).
Qed.

(** C3, on a simulated clock: for a job with a valid unit (one unit
    lasting [d]), [interval >= 1] and neither [at_time], [latest],
    [start_day] nor a time zone, a run that is not cancelled on entry and
    whose function returns leaves [next_run - last_run = interval * d],
    provided the date stays within the range of [datetime]. *)
Theorem plain_interval_exact (me : job_ref) (j : Job) (e : Env) (now : datetime)
    (u : string) (d : timedelta) (f : callable) (v : pyval) :
  is_realtime (sched e) = false -> _timestamp (sched e) = Some now ->
  scheduler j = Some the_scheduler ->
  unit j = Some u -> td_of_unit u 1 = Ok d ->
  1 <= interval j ->
  at_time j = None -> latest j = None -> start_day j = None ->
  at_time_zone j = None ->
  job_func j = Some f -> job_call f (trace e ++ [EvRun me; EvCall f]) = Ok v ->
  fst (_is_overdue (Some now) (j, e)) = Ok false ->
  dt_valid now -> dt_ticks now + interval j * d < MAXORDINAL * DAY ->
  exists r j' e' lr nr,
    run me (j, e) = (Ok r, (j', e'))
    /\ last_run j' = Some lr /\ lr = now
    /\ next_run j' = Some nr
    /\ dt_sub nr lr = Ok (interval j * d)
    /\ dt_ticks nr - dt_ticks lr = interval j * d.
Proof.
  intros Hrt Hts Hs Hu Hd Hi Hat Hl Hsd Htz Hf Hcall Hov [H0 _] Hmax.
  pose proof (td_of_unit_pos _ _ Hd) as Hdpos.
  set (e1 := logged (EvRun me) e).
  set (e2 := logged (EvCall f) e1).
  assert (Ht1 : timestamp e1 = (Ok (Some now), e1)).
  { rewrite timestamp_simulated by exact Hrt. simpl. by rewrite Hts. }
  assert (Ht2 : timestamp e2 = (Ok (Some now), e2)).
  { rewrite timestamp_simulated by exact Hrt. simpl. by rewrite Hts. }
  assert (Hp : td_of_unit u (interval j) = Ok (interval j * d)).
  { apply td_of_unit_scale; [done|]. unfold MAXDELTADAYS, MAXORDINAL, DAY, HOUR,
      MINUTE, SECOND in *. nia. }
  set (nr := mk_datetime (dt_ticks now + interval j * d) (dt_tzinfo now)).
  assert (Hnr : dt_add now (interval j * d) = Ok nr) by (apply dt_add_in_range; nia).
  set (j1 := set_last_run (Some now) j).
  assert (Hsch : _schedule_next_run (j1, e2)
                 = (Ok tt, (set_next_run (Some nr)
                              (set_period (Some (interval j * d)) j1), e2))).
  { apply _schedule_next_run_plain with now the_scheduler; try done.
    - unfold j1. simpl. rewrite Hu. by apply td_of_unit_valid with 1 d.
    - unfold j1. simpl. by rewrite Hu. }
  assert (Hov1 : _is_overdue (Some now) (j, e1) = (Ok false, (j, e1)))
    by (by apply _is_overdue_eq with j e).
  assert (exists late, forall jx ex, cancel_after jx = cancel_after j ->
            _is_overdue (Some nr) (jx, ex) = (Ok late, (jx, ex))) as [late Hlate].
  { revert Hov. unfold _is_overdue. mred. destruct (cancel_after j) as [ca|] eqn:Hca.
    - simpl. intros Hgt. destruct (dt_gt now ca) as [b|] eqn:Hb; [|discriminate].
      destruct (dt_gt_same_tz now nr ca b eq_refl Hb) as [late Hl'].
      exists late. intros jx ex ->. by rewrite Hl'.
    - intros _. exists false. by intros jx ex ->. }
  eexists _, _, _, now, nr. split; [|split; [|split; [|split; [|split]]]].
  - eapply run_returns with (late := late); try eassumption.
    + unfold e1. simpl. by rewrite <- app_assoc.
    + apply Hlate. reflexivity.
  - reflexivity.
  - reflexivity.
  - reflexivity.
  - rewrite dt_sub_same_tz by reflexivity. simpl. f_equal. lia.
  - simpl. lia.
Qed.

(** ** Clock arithmetic *)

Ltac unfold_units := unfold clock_us, WEEK, DAY, HOUR, MINUTE, SECOND in *.

Lemma dt_time_valid (d : datetime) : time_valid (dt_time d).
Proof.
  unfold time_valid, dt_time, dt_hour, dt_minute, dt_second, dt_microsecond.
  simpl. unfold_units. lia.
Qed.

Lemma dt_time_us (d : datetime) : t_us (dt_time d) = dt_ticks d mod DAY.
Proof.
  unfold t_us, dt_time, dt_hour, dt_minute, dt_second, dt_microsecond.
  simpl. unfold_units. lia.
Qed.

Lemma time_gt_us (a b : time) :
  time_valid a -> time_valid b -> time_gt a b = (t_us b <? t_us a).
Proof.
  unfold time_valid, time_gt, t_us. intros Ha Hb. unfold_units.
  destruct (Z.ltb_spec (t_hour b) (t_hour a));
    destruct (Z.eqb_spec (t_hour a) (t_hour b));
    destruct (Z.ltb_spec (t_minute b) (t_minute a));
    destruct (Z.eqb_spec (t_minute a) (t_minute b));
    destruct (Z.ltb_spec (t_second b) (t_second a));
    destruct (Z.eqb_spec (t_second a) (t_second b));
    destruct (Z.ltb_spec (t_microsecond b) (t_microsecond a));
    simpl; symmetry; first [apply Z.ltb_lt | apply Z.ltb_ge]; lia.
Qed.

(** The clock reading of a datetime put together from a day number and
    valid clock fields. *)
Lemma dt_time_clock (day h m s us : Z) tz :
  0 <= h <= 23 -> 0 <= m <= 59 -> 0 <= s <= 59 -> 0 <= us <= 999999 ->
  dt_time (mk_datetime (day * DAY + clock_us h m s us) tz) = mk_time h m s us None.
Proof.
  intros Hh Hm Hs Hus.
  unfold dt_time, dt_hour, dt_minute, dt_second, dt_microsecond. simpl.
  f_equal; unfold_units; lia.
Qed.

Lemma dt_replace_all (d : datetime) (h m s us : Z) :
  0 <= h <= 23 -> 0 <= m <= 59 -> 0 <= s <= 59 -> 0 <= us <= 999999 ->
  dt_replace d (Some h) (Some m) (Some s) (Some us)
  = Ok (mk_datetime (dt_ticks d / DAY * DAY + clock_us h m s us) (dt_tzinfo d)).
Proof.
  intros Hh Hm Hs Hus. unfold dt_replace. simpl.
  repeat match goal with
         | |- context [?a <=? ?b] => destruct (Z.leb_spec a b); [|lia]
         end.
  reflexivity.
Qed.

Lemma dt_sub_td_in_range (d : datetime) (td : timedelta) :
  - MAXDELTADAYS <= (- td) / DAY <= MAXDELTADAYS ->
  0 <= dt_ticks d - td < MAXORDINAL * DAY ->
  dt_sub_td d td = Ok (mk_datetime (dt_ticks d - td) (dt_tzinfo d)).
Proof.
  intros Htd Hr. unfold dt_sub_td, td_neg. rewrite td_make_in_range by exact Htd.
  simpl. rewrite dt_add_in_range by lia. f_equal.
Qed.

(** ** Clock and weekday anchors *)

Lemma every_day_at_1030_built (e : Env) :
  (day ;;; at_ (ArgStr "10:30") TzNone) (Job_init 1 (Some the_scheduler), e)
  = (Ok tt, (every_day_at_1030, e)).
Proof. reflexivity. Qed.

Lemma every_monday_at_noon_built (e : Env) :
  (monday ;;; at_ (ArgStr "12:00") TzNone) (Job_init 1 (Some the_scheduler), e)
  = (Ok tt, (every_monday_at_noon, e)).
Proof. reflexivity. Qed.

Ltac zlia :=
  unfold clock_us, MAXORDINAL, MAXDELTADAYS, WEEK, DAY, HOUR, MINUTE, SECOND in *;
  lia.

Ltac jred :=
  mred;
  cbn [interval latest job_func unit at_time at_time_zone last_run next_run
       period start_day cancel_after tags scheduler
       set_latest set_job_func set_unit set_at_time set_at_time_zone
       set_last_run set_next_run set_period set_start_day set_cancel_after
       set_tags not_None is_None negb andb orb dt_ticks dt_tzinfo
       t_hour t_minute t_second t_microsecond].

Lemma set_next_run_twice a b j : set_next_run a (set_next_run b j) = set_next_run a j.
Proof. reflexivity. Qed.

Lemma _schedule_next_run_first_daily (j : Job) (e e1 : Env) (now : datetime)
    (at_ : time) sr :
  scheduler j = Some sr ->
  timestamp e = (Ok (Some now), e1) ->
  unit j = Some "days"%string -> interval j = 1 -> latest j = None ->
  start_day j = None -> at_time_zone j = None -> at_time j = Some at_ ->
  last_run j = None -> time_valid at_ ->
  0 <= dt_ticks now -> dt_ticks now + DAY < MAXORDINAL * DAY ->
  let c := clock_us (t_hour at_) (t_minute at_) (t_second at_) 0 in
  let days_ahead := if dt_ticks now mod DAY <? c then 0 else 1 in
  _schedule_next_run (j, e)
  = (Ok tt,
     (set_next_run
        (Some (mk_datetime ((dt_ticks now / DAY + days_ahead) * DAY + c)
                 (dt_tzinfo now)))
        (set_period (Some DAY) j), e1)).
Proof.
  intros Hs Ht Hu Hi Hl Hsd Htz Hat Hlr Hv H0 Hmax c days_ahead.
  pose proof (scheduler_timestamp_eq j _ _ _ _ Hs Ht) as Hst.
  destruct Hv as (Hh & Hm & Hsec & Hus).
  assert (Hu5 : str_in (unit j) ["seconds"; "minutes"; "hours"; "days"; "weeks"]
                = true) by (by rewrite Hu).
  assert (Hu3 : str_in (unit j) ["days"; "hours"; "minutes"] = true)
    by (by rewrite Hu).
  assert (Hu2 : str_in (unit j) ["days"; "hours"] = true) by (by rewrite Hu).
  assert (Hu1 : str_is (unit j) "days" = true) by (by rewrite Hu).
  assert (Hp : td_of_unit (default "" (unit j)) 1 = Ok DAY) by (by rewrite Hu).
  unfold _schedule_next_run. jred. rewrite Hu5. jred.
  unfold effective_interval, reference_now. jred. rewrite Hl, Htz, Hst, Hi, Hp. jred.
  rewrite dt_add_in_range by zlia.
  unfold weekday_anchor, normalize_next_run. jred. rewrite Hsd. jred. rewrite Htz. jred.
  unfold clock_anchor, the_next_run. jred. rewrite Hat, Hu3, Hu2, Hu1, Hsd. jred.
  rewrite dt_replace_all by lia. jred.
  unfold _to_at_timezone. jred. rewrite Htz, Hlr. jred.
  rewrite dt_time_clock by lia.
  rewrite time_gt_us; [|repeat split; simpl; lia | apply dt_time_valid].
  rewrite dt_time_us. unfold t_us. cbn [t_hour t_minute t_second t_microsecond].
  fold c. rewrite Hi. change (1 =? 1) with true. rewrite andb_true_r.
  assert (Hc : 0 <= c < DAY) by (subst c; zlia).
  assert (Hdiv : (dt_ticks now + DAY) / DAY = dt_ticks now / DAY + 1) by zlia.
  rewrite Hdiv. subst days_ahead.
  destruct (Z.ltb_spec (dt_ticks now mod DAY) c).
  - rewrite dt_sub_td_in_range; [|zlia|cbn [dt_ticks]; zlia]. jred.
    unfold same_week, to_native. jred. rewrite Hsd. jred. rewrite Htz.
    rewrite !set_next_run_twice. repeat f_equal. zlia.
  - replace (str_is (unit j) "hours") with false by (by rewrite Hu).
    replace (str_is (unit j) "minutes") with false by (by rewrite Hu). jred.
    unfold same_week, to_native. jred. rewrite Hsd. jred. rewrite Htz.
    rewrite !set_next_run_twice. reflexivity.
Qed.

(** C4: [every().day.at("10:30").do(f)], first computation at the
    reference instant [now]: before 10:30 the next run is the same day at
    10:30:00, from 10:30 on it is the following day at 10:30:00. *)
Theorem every_day_at_1030_next_run (me : job_ref) (f : callable) (e e1 : Env)
    (now : datetime) :
  timestamp e = (Ok (Some now), e1) ->
  dt_valid now -> dt_ticks now + DAY < MAXORDINAL * DAY ->
  exists j' e',
    (day ;;; at_ (ArgStr "10:30") TzNone ;;; do_ me f)
      (Job_init 1 (Some the_scheduler), e) = (Ok tt, (j', e'))
    /\ jobs (sched e') = jobs (sched e) ++ [me]
    /\ (dt_ticks now mod DAY < clock_us 10 30 0 0 ->
        next_run j'
        = Some (mk_datetime (dt_ticks now / DAY * DAY + clock_us 10 30 0 0)
                  (dt_tzinfo now)))
    /\ (clock_us 10 30 0 0 <= dt_ticks now mod DAY ->
        next_run j'
        = Some (mk_datetime ((dt_ticks now / DAY + 1) * DAY + clock_us 10 30 0 0)
                  (dt_tzinfo now))).
Proof.
  intros Ht [H0 _] Hmax.
  change ((day ;;; at_ (ArgStr "10:30") TzNone ;;; do_ me f)
            (Job_init 1 (Some the_scheduler), e))
    with (do_ me f (every_day_at_1030, e)).
  assert (Hv : time_valid (mk_time 10 30 0 0 None)) by (repeat split; simpl; lia).
  pose proof (_schedule_next_run_first_daily
                (set_job_func (Some f) every_day_at_1030) e e1 now _ the_scheduler
                eq_refl Ht eq_refl eq_refl eq_refl eq_refl eq_refl eq_refl eq_refl
                Hv H0 Hmax) as Hsn.
  unfold do_. jred. rewrite Hsn.
  jred. eexists _, _. split; [reflexivity|]. cbn [sched set_sched jobs set_jobs].
  rewrite (timestamp_sched _ _ _ Ht). split; [reflexivity|].
  cbn [t_hour t_minute t_second]. split; intros Hlt.
  - destruct (Z.ltb_spec (dt_ticks now mod DAY) (clock_us 10 30 0 0)); [|lia].
    rewrite Z.add_0_r. reflexivity.
  - destruct (Z.ltb_spec (dt_ticks now mod DAY) (clock_us 10 30 0 0)); [lia|].
    reflexivity.
Qed.

Lemma index_of_weekdays_range (sd : string) (k : Z) :
  index_of sd weekdays = Some k -> 0 <= k <= 6.
Proof.
  unfold weekdays. simpl.
  repeat (destruct (sd =? _)%string; [intros [= <-]; lia|]). discriminate.
Qed.

Lemma dt_weekday_range (d : datetime) : 0 <= dt_weekday d <= 6.
Proof. unfold dt_weekday. lia. Qed.

Lemma _schedule_next_run_first_weekday (j : Job) (e e1 : Env) (now : datetime)
    (at_ : time) (sd : string) (k : Z) sr :
  scheduler j = Some sr ->
  timestamp e = (Ok (Some now), e1) ->
  unit j = Some "weeks"%string -> interval j = 1 -> latest j = None ->
  start_day j = Some sd -> index_of sd weekdays = Some k ->
  at_time_zone j = None -> at_time j = Some at_ ->
  (forall lr, last_run j = Some lr -> dt_tzinfo lr = dt_tzinfo now) ->
  time_valid at_ ->
  0 <= dt_ticks now -> dt_ticks now + WEEK < MAXORDINAL * DAY ->
  let c := clock_us (t_hour at_) (t_minute at_) (t_second at_) 0 in
  let ahead := if k - dt_weekday now <=? 0 then k - dt_weekday now + 7
               else k - dt_weekday now in
  let days_ahead := if (ahead =? 7) && (dt_ticks now mod DAY <=? c) then 0
                    else ahead in
  _schedule_next_run (j, e)
  = (Ok tt,
     (set_next_run
        (Some (mk_datetime ((dt_ticks now / DAY + days_ahead) * DAY + c)
                 (dt_tzinfo now)))
        (set_period (Some WEEK) j), e1)).
Proof.
  intros Hs Ht Hu Hi Hl Hsd Hk Htz Hat Hlr Hv H0 Hmax c ahead days_ahead.
  pose proof (scheduler_timestamp_eq j _ _ _ _ Hs Ht) as Hst.
  pose proof (index_of_weekdays_range _ _ Hk) as Hkr.
  pose proof (dt_weekday_range now) as Hwd.
  destruct Hv as (Hh & Hm & Hsec & Hus).
  assert (Hu5 : str_in (unit j) ["seconds"; "minutes"; "hours"; "days"; "weeks"]
                = true) by (by rewrite Hu).
  assert (Hu3 : str_in (unit j) ["days"; "hours"; "minutes"] = false)
    by (by rewrite Hu).
  assert (Hu2 : str_in (unit j) ["days"; "hours"] = false) by (by rewrite Hu).
  assert (Hud : str_is (unit j) "days" = false) by (by rewrite Hu).
  assert (Huh : str_is (unit j) "hours" = false) by (by rewrite Hu).
  assert (Hum : str_is (unit j) "minutes" = false) by (by rewrite Hu).
  assert (Huw : str_is (unit j) "weeks" = true) by (by rewrite Hu).
  assert (Hp : td_of_unit (default "" (unit j)) 1 = Ok WEEK) by (by rewrite Hu).
  assert (Hc : 0 <= c < DAY) by (subst c; zlia).
  unfold _schedule_next_run. jred. rewrite Hu5. jred.
  unfold effective_interval, reference_now. jred. rewrite Hl, Htz, Hst, Hi, Hp. jred.
  rewrite dt_add_in_range by zlia.
  unfold weekday_anchor, the_next_run. jred. rewrite Hsd, Huw, Hk. jred.
  assert (Hwd' : dt_weekday (mk_datetime (dt_ticks now + WEEK) (dt_tzinfo now))
                 = dt_weekday now).
  { unfold dt_weekday, dt_toordinal. cbn [dt_ticks]. zlia. }
  rewrite Hwd'. fold ahead.
  assert (Ha : 1 <= ahead <= 7) by (subst ahead; destruct (Z.leb_spec (k - dt_weekday now) 0); lia).
  rewrite td_make_in_range by zlia. jred.
  unfold td_sub. rewrite td_make_in_range by zlia. jred.
  rewrite dt_add_in_range by (cbn [dt_ticks]; zlia). jred.
  unfold normalize_next_run. jred. rewrite Htz. jred.
  unfold clock_anchor, the_next_run. jred. rewrite Hat, Hu3, Hu2, Hud, Hsd. jred.
  rewrite dt_replace_all by lia. jred.
  assert (Hdiv : (dt_ticks now + WEEK + (ahead * DAY - WEEK)) / DAY
                 = dt_ticks now / DAY + ahead) by zlia.
  unfold _to_at_timezone. jred. rewrite Htz.
  destruct (last_run j) as [lr|] eqn:Hlast; jred;
    [ rewrite dt_sub_same_tz by (cbn [dt_tzinfo]; symmetry; by apply Hlr); jred;
      destruct (WEEK <? _); jred | ].
  all: rewrite ?Huh, ?Hum; jred;
       unfold same_week, the_next_run; jred; rewrite Hsd, Hat; jred;
       rewrite dt_sub_same_tz by reflexivity; jred;
       fold c; rewrite Hdiv; unfold td_days; subst days_ahead;
       destruct (Z.leb_spec 7 (((dt_ticks now / DAY + ahead) * DAY + c
                                - dt_ticks now) / DAY)) as [Hge|Hlt];
       [ assert (ahead = 7 /\ dt_ticks now mod DAY <= c) as [Ha7 Hle] by zlia;
         rewrite Ha7; change (7 =? 7) with true;
         destruct (Z.leb_spec (dt_ticks now mod DAY) c); [|lia]; cbn [andb];
         rewrite dt_sub_td_in_range; [|zlia|cbn [dt_ticks]; zlia]; jred;
         unfold to_native; jred; rewrite Htz;
         rewrite !set_next_run_twice; repeat f_equal; cbn [dt_ticks]; zlia
       | assert (Hn : (ahead =? 7) && (dt_ticks now mod DAY <=? c) = false)
           by (destruct (Z.eqb_spec ahead 7); [|reflexivity];
               destruct (Z.leb_spec (dt_ticks now mod DAY) c); [|reflexivity]; zlia);
         rewrite Hn; unfold to_native; jred; rewrite Htz;
         rewrite !set_next_run_twice; reflexivity ].
Qed.

(** C5: [every().monday.at("12:00").do(f)], computed at the reference
    instant [now], whatever its weekday and clock time: the next run is
    a Monday at 12:00:00, between 0 and 6 whole days after [now]; on a
    Monday it is the same day up to 12:00:00 and the Monday of the
    following week after 12:00:00.  A recomputation at [now], after a
    run at any instant [lr], gives the same next run. *)
Theorem every_monday_at_noon_next_run (me : job_ref) (f : callable) (e e1 : Env)
    (now : datetime) :
  timestamp e = (Ok (Some now), e1) ->
  dt_valid now -> dt_ticks now + WEEK < MAXORDINAL * DAY ->
  exists j' e' nr d,
    (monday ;;; at_ (ArgStr "12:00") TzNone ;;; do_ me f)
      (Job_init 1 (Some the_scheduler), e) = (Ok tt, (j', e'))
    /\ next_run j' = Some nr
    /\ dt_weekday nr = 0
    /\ dt_time nr = mk_time 12 0 0 0 None
    /\ dt_sub nr now = Ok d /\ 0 <= d /\ 0 <= td_days d <= 6
    /\ (dt_weekday now = 0 -> clock_us 12 0 0 0 < dt_ticks now mod DAY ->
        dt_toordinal nr = dt_toordinal now + 7)
    /\ (dt_weekday now = 0 -> dt_ticks now mod DAY <= clock_us 12 0 0 0 ->
        dt_toordinal nr = dt_toordinal now)
    /\ (dt_weekday now <> 0 ->
        dt_toordinal nr = dt_toordinal now + (7 - dt_weekday now))
    /\ (forall lr e2 e3,
          timestamp e2 = (Ok (Some now), e3) -> dt_tzinfo lr = dt_tzinfo now ->
          exists j'',
            _schedule_next_run (set_last_run (Some lr) j', e2) = (Ok tt, (j'', e3))
            /\ next_run j'' = Some nr).
Proof.
  intros Ht [H0 _] Hmax.
  change ((monday ;;; at_ (ArgStr "12:00") TzNone ;;; do_ me f)
            (Job_init 1 (Some the_scheduler), e))
    with (do_ me f (every_monday_at_noon, e)).
  assert (Hv : time_valid (mk_time 12 0 0 0 None)) by (repeat split; simpl; lia).
  pose proof (fun j2 e2 e3 Hs Ht2 Hu Hi Hl Hsd Htz Hat Hlr =>
                _schedule_next_run_first_weekday j2 e2 e3 now _ "monday" 0
                  the_scheduler Hs Ht2 Hu Hi Hl Hsd eq_refl Htz Hat Hlr Hv H0 Hmax)
    as Hall.
  cbv zeta in Hall. cbn [t_hour t_minute t_second] in Hall.
  pose proof (dt_weekday_range now) as Hwd.
  set (c := clock_us 12 0 0 0) in *.
  set (ahead := if 0 - dt_weekday now <=? 0 then 0 - dt_weekday now + 7
                else 0 - dt_weekday now) in *.
  set (days_ahead := if (ahead =? 7) && (dt_ticks now mod DAY <=? c) then 0
                     else ahead) in *.
  assert (Ha : ahead = 7 - dt_weekday now).
  { subst ahead. destruct (Z.leb_spec (0 - dt_weekday now) 0); lia. }
  assert (Hc : c = 43200000000) by reflexivity.
  assert (Hda : (dt_weekday now = 0 /\ dt_ticks now mod DAY <= c /\ days_ahead = 0)
                \/ ((dt_weekday now <> 0 \/ c < dt_ticks now mod DAY)
                    /\ days_ahead = 7 - dt_weekday now)).
  { subst days_ahead. destruct (Z.eqb_spec ahead 7);
      destruct (Z.leb_spec (dt_ticks now mod DAY) c); cbn [andb]; lia. }
  clearbody days_ahead ahead c.
  pose proof (Hall (set_job_func (Some f) every_monday_at_noon) e e1
                eq_refl Ht eq_refl eq_refl eq_refl eq_refl eq_refl eq_refl
                ltac:(discriminate)) as Hsn.
  unfold do_. jred. rewrite Hsn. jred.
  eexists _, _, _, _. split; [reflexivity|]. split; [reflexivity|].
  rewrite dt_sub_same_tz by reflexivity. cbn [dt_ticks].
  unfold dt_weekday, dt_toordinal, td_days in *. cbn [dt_ticks].
  split; [zlia|]. split.
  { rewrite Hc. change 43200000000 with (clock_us 12 0 0 0).
    apply dt_time_clock; lia. }
  split; [reflexivity|].
  repeat split; try zlia.
  intros lr e2 e3 Ht2 Hlr. eexists. split.
  - apply Hall; try reflexivity; [exact Ht2|]. by intros ? [= <-].
  - reflexivity.
Qed.

(** ** Deadlines *)


(** ** The registered jobs *)

Section JobFrame.

Variable me : job_ref.

Lemma job_frame_refl s : job_frame me s s.
Proof. split; auto. Qed.

Lemma job_frame_trans s1 s2 s3 :
  job_frame me s1 s2 -> job_frame me s2 s3 -> job_frame me s1 s3.
Proof.
  intros [H1 H2] [H3 H4]. split; [auto|].
  intros r Hr. destruct (H4 r Hr) as [Hr2 | [-> Hn]]; [|by right].
  destruct (H2 r Hr2) as [Hr1 | [-> Hn]]; [by left | right; auto].
Qed.

Lemma job_frame_of_sched_frame kp s s' : sched_frame kp s s' -> job_frame me s s'.
Proof.
  intros Hfr. split; [apply Hfr|].
  intros r Hr. left. by rewrite <- (fr_sched _ _ _ Hfr).
Qed.

Lemma jf_set_self (f : Job -> Job) :
  (forall j, next_run j <> None -> next_run (f j) <> None) ->
  preserves (job_frame me) (set_self f).
Proof. intros Hf [j e] r s' [= _ <-]. split; simpl; auto. Qed.

Lemma jf_log ev : preserves (job_frame me) (log ev).
Proof. intros [j e] r s' [= _ <-]. split; simpl; auto. Qed.

Lemma jf_scheduler_timestamp : preserves (job_frame me) scheduler_timestamp.
Proof.
  intros s r s' Hs.
  apply (job_frame_of_sched_frame true), (frame_scheduler_timestamp true _ _ _ Hs).
Qed.

Lemma jf__schedule_next_run : preserves (job_frame me) _schedule_next_run.
Proof.
  intros s r s' Hs.
  apply (job_frame_of_sched_frame false), (frame__schedule_next_run _ _ _ Hs).
Qed.

Lemma jf__is_overdue when : preserves (job_frame me) (_is_overdue when).
Proof.
  intros s r s' Hs. rewrite (_is_overdue_state _ _ _ _ Hs). apply job_frame_refl.
Qed.

(** One syntax-directed step of a proof that a method undoes nothing. *)
Ltac jf_step :=
  lazymatch goal with
  | |- preserves _ (bind _ _) =>
      apply preserves_bind; [apply job_frame_trans | | intros ?]
  | |- preserves _ (ret _) => apply preserves_ret, job_frame_refl
  | |- preserves _ (raise _) => apply preserves_raise, job_frame_refl
  | |- preserves _ (lift _) => apply preserves_lift, job_frame_refl
  | |- preserves _ (need _ _) => apply preserves_need, job_frame_refl
  | |- preserves _ (gets _) => apply preserves_gets, job_frame_refl
  | |- preserves _ self => apply preserves_gets, job_frame_refl
  | |- preserves _ (log _) => apply jf_log
  | |- preserves _ scheduler_timestamp => apply jf_scheduler_timestamp
  | |- preserves _ _schedule_next_run => apply jf__schedule_next_run
  | |- preserves _ (_is_overdue _) => apply jf__is_overdue
  | |- preserves _ (set_self _) => apply jf_set_self; intros ? ?; assumption
  | |- preserves _ (match ?x with _ => _ end) => destruct x
  end.

Lemma jf_set_unit u : preserves (job_frame me) (set_self (set_unit u)).
Proof. jf_step. Qed.

Lemma jf_singular plural :
  preserves (job_frame me) plural -> preserves (job_frame me) (singular plural).
Proof. intros Hp. unfold singular. repeat (jf_step || exact Hp). Qed.

Lemma jf_weekday_property name : preserves (job_frame me) (weekday_property name).
Proof. unfold weekday_property, weeks. repeat jf_step. Qed.

Lemma jf_tag l : preserves (job_frame me) (tag l).
Proof. unfold tag. repeat jf_step. Qed.

Lemma jf_to n : preserves (job_frame me) (to n).
Proof. unfold to. jf_step. Qed.

Lemma jf_at_ time_str tz : preserves (job_frame me) (at_ time_str tz).
Proof. unfold at_. cbv zeta. repeat jf_step. Qed.

Lemma jf_until arg : preserves (job_frame me) (until arg).
Proof. unfold until. repeat jf_step. Qed.

Lemma jf_should_run : preserves (job_frame me) should_run.
Proof. unfold should_run. repeat jf_step. Qed.

Lemma jf_run : preserves (job_frame me) (run me).
Proof. unfold run. repeat jf_step. Qed.

Lemma jf_do_ f : preserves (job_frame me) (do_ me f).
Proof.
  intros [j e] r s'. unfold do_. mred.
  destruct (_schedule_next_run _) as [[[]|x] [j1 e1]] eqn:Hsch.
  - pose proof (frame__schedule_next_run _ _ _ Hsch) as Hfr.
    pose proof (_schedule_next_run_sets_next_run _ _ _ Hsch) as Hnr.
    pose proof (fr_sched _ _ _ Hfr) as Hsc. simpl in *.
    destruct (scheduler j1); intros [= _ <-]; split; simpl; auto.
    + intros x. rewrite Hsc, elem_of_app, list_elem_of_singleton.
      intros [Hx | ->]; [by left | by right].
    + intros x Hx. left. by rewrite <- Hsc.
  - pose proof (frame__schedule_next_run _ _ _ Hsch) as Hfr.
    intros [= _ <-].
    apply (job_frame_of_sched_frame false) in Hfr.
    destruct Hfr as [H1 H2]. split; simpl in *; auto.
Qed.

Lemma jf_call_method m : preserves (job_frame me) (call_method me m).
Proof.
  destruct m; cbn [call_method].
  1, 3, 5, 7, 9: apply jf_singular, jf_set_unit.
  1-5: apply jf_set_unit.
  1-7: apply jf_weekday_property.
  - apply jf_tag.
  - apply jf_at_.
  - apply jf_to.
  - apply jf_until.
  - apply jf_do_.
  - jf_step; [apply jf_should_run | jf_step].
  - jf_step; [apply jf_run | jf_step].
Qed.

End JobFrame.

Lemma world_frame_refl w : world_frame w w.
Proof. split; eauto. Qed.

Lemma world_frame_trans w1 w2 w3 :
  world_frame w1 w2 -> world_frame w2 w3 -> world_frame w1 w3.
Proof.
  intros [H1 H2] [H3 H4]. split.
  - intros r j Hj. destruct (H1 r j Hj) as (j2 & Hj2 & Hn2).
    destruct (H3 r j2 Hj2) as (j3 & Hj3 & Hn3). eauto.
  - intros r Hr. destruct (H4 r Hr) as [Hr2 | Hok]; [|by right].
    destruct (H2 r Hr2) as [Hr1 | (j2 & Hj2 & Hn2)]; [by left|].
    right. destruct (H3 r j2 Hj2) as (j3 & Hj3 & Hn3). eauto.
Qed.

Lemma wf_with_job {A} (r : job_ref) (m : M JS A) :
  preserves (job_frame r) m -> preserves world_frame (with_job r m).
Proof.
  intros Hm w res w'. unfold with_job.
  destruct (heap w !! r) as [j|] eqn:Hj; [|intros [= _ <-]; apply world_frame_refl].
  destruct (m (j, env w)) as [res' [j' e']] eqn:E. intros [= _ <-].
  destruct (Hm _ _ _ E) as [Hn Hjobs]. simpl in *. split; simpl.
  - intros r0 j0 Hj0. destruct (decide (r = r0)) as [<- | Hne].
    + rewrite lookup_insert_eq. exists j'. split; [done|].
      rewrite Hj in Hj0. by injection Hj0 as <-.
    + rewrite lookup_insert_ne by done. eauto.
  - intros r0 Hr0. destruct (Hjobs r0 Hr0) as [? | [-> Hnr]]; [by left|].
    right. rewrite lookup_insert_eq. eauto.
Qed.

Lemma wf_in_world {A} (m : M Env A) :
  (forall e r e' x, m e = (r, e') -> x ∈ jobs (sched e') -> x ∈ jobs (sched e)) ->
  preserves world_frame (in_world m).
Proof.
  intros Hm w res w'. unfold in_world.
  destruct (m (env w)) as [r e'] eqn:E. intros [= _ <-]. split; simpl; [eauto|].
  intros x Hx. left. eapply Hm; eassumption.
Qed.

Lemma elem_of_remove_first (x y : job_ref) (l : list job_ref) :
  x ∈ remove_first y l -> x ∈ l.
Proof.
  induction l as [|z l IH]; simpl; [done|].
  destruct (decide (y = z)); rewrite ?elem_of_cons; intuition.
Qed.

Lemma wf_cancel_job r : preserves world_frame (cancel_job r).
Proof.
  apply wf_in_world. intros e res e' x [= _ <-]. simpl.
  apply elem_of_remove_first.
Qed.

Lemma wf_timestamp : preserves world_frame (in_world timestamp).
Proof.
  apply wf_in_world. intros e res e' x Ht. by rewrite (timestamp_sched _ _ _ Ht).
Qed.

Lemma wf_set_timestamp t : preserves world_frame (in_world (set_timestamp t)).
Proof.
  apply wf_in_world. intros e res e' x. unfold set_timestamp.
  destruct (is_realtime (sched e)); [by intros [= _ <-]|].
  destruct (_timestamp (sched e)); [|by intros [= _ <-]].
  destruct (dt_lt t d) as [[|]|]; by intros [= _ <-].
Qed.

Lemma wf_Job_lt a b : preserves world_frame (Job_lt a b).
Proof.
  intros w r w'. unfold Job_lt.
  destruct (heap w !! a) as [ja|], (heap w !! b) as [jb|];
    try (intros [= _ <-]; apply world_frame_refl).
  destruct (next_run ja), (next_run jb); intros [= _ <-]; apply world_frame_refl.
Qed.

Lemma wf_every i : preserves world_frame (every i).
Proof.
  intros w r w' [= _ <-]. split; simpl; [|by left].
  intros r0 j Hj. destruct (decide (fresh (dom (heap w)) = r0)) as [<- | Hne].
  - exfalso. apply (is_fresh (dom (heap w))). apply elem_of_dom. eauto.
  - rewrite lookup_insert_ne by done. eauto.
Qed.

Ltac wf_step :=
  lazymatch goal with
  | |- preserves _ (bind _ _) =>
      apply preserves_bind; [apply world_frame_trans | | intros ?]
  | |- preserves _ (ret _) => apply preserves_ret, world_frame_refl
  | |- preserves _ (raise _) => apply preserves_raise, world_frame_refl
  | |- preserves _ (lift _) => apply preserves_lift, world_frame_refl
  | |- preserves _ (gets _) => apply preserves_gets, world_frame_refl
  | |- preserves _ (Job_lt _ _) => apply wf_Job_lt
  | |- preserves _ (cancel_job _) => apply wf_cancel_job
  | |- preserves _ (in_world timestamp) => apply wf_timestamp
  | |- preserves _ (match ?x with _ => _ end) => destruct x
  end.

Lemma wf__run_job r : preserves world_frame (_run_job r).
Proof.
  unfold _run_job. wf_step; [apply wf_with_job, jf_run|]. repeat wf_step.
Qed.

Lemma wf_for_each body l :
  (forall x, preserves world_frame (body x)) -> preserves world_frame (for_each body l).
Proof. intros Hb. induction l; simpl; repeat (wf_step || apply Hb || assumption). Qed.

Lemma wf_runnable_jobs l : preserves world_frame (runnable_jobs l).
Proof.
  induction l; simpl; [wf_step|].
  wf_step; [apply wf_with_job, jf_should_run|].
  wf_step; [assumption|]. wf_step.
Qed.

Lemma wf_insert_job x l : preserves world_frame (insert_job x l).
Proof. induction l; simpl; repeat (wf_step || assumption). Qed.

Lemma wf_sorted_from l : forall acc, preserves world_frame (sorted_from acc l).
Proof.
  induction l; intros acc; simpl; [wf_step|].
  wf_step; [apply wf_insert_job | apply IHl].
Qed.

Lemma wf_run_pending : preserves world_frame run_pending.
Proof.
  unfold run_pending. wf_step; [wf_step|].
  wf_step; [apply wf_runnable_jobs|].
  wf_step; [apply wf_sorted_from|].
  apply wf_for_each, wf__run_job.
Qed.

Lemma wf_run_all delay : preserves world_frame (run_all delay).
Proof.
  unfold run_all. wf_step; [wf_step|].
  apply wf_for_each. intros x. wf_step; [apply wf__run_job|]. repeat wf_step.
Qed.

Lemma jf_gets {A} me (f : JS -> A) : preserves (job_frame me) (gets f).
Proof. apply preserves_gets, job_frame_refl. Qed.

(** [jobs_tagged] selects among the jobs it is given. *)
Lemma jobs_tagged_spec keep t l w r w' :
  jobs_tagged keep t l w = (r, w') ->
  world_frame w w'
  /\ (forall x, x ∈ jobs (sched (env w')) -> x ∈ jobs (sched (env w)))
  /\ (forall res x, r = Ok res -> x ∈ res -> x ∈ l).
Proof.
  revert w r w'. induction l as [|y l IH]; intros w r w'; simpl.
  - intros [= <- <-]. split; [apply world_frame_refl|]. split; [auto|].
    intros res x [= <-]. by rewrite elem_of_nil.
  - intros Hb. destruct (bind_inv _ _ _ _ _ Hb) as
      [(tg & w1 & H1 & H2) | (x & H1 & ->)].
    + pose proof (wf_with_job y _ (jf_gets y _) _ _ _ H1) as Hf1.
      assert (Hj1 : jobs (sched (env w1)) = jobs (sched (env w))).
      { revert H1. unfold with_job. destruct (heap w !! y); [|by intros [= _ <-]].
        by intros [= _ <-]. }
      destruct (bind_inv _ _ _ _ _ H2) as [(rest & w2 & H3 & H4) | (x & H3 & ->)].
      * destruct (IH _ _ _ H3) as (Hf2 & Hj2 & Hres). injection H4 as <- <-.
        split; [by eapply world_frame_trans|]. split.
        { intros x Hx. rewrite <- Hj1. auto. }
        intros res x [= <-] Hx. destruct (bool_decide _).
        -- apply elem_of_cons in Hx as [-> | Hx]; [by left|].
           right. by eapply Hres.
        -- right. by eapply Hres.
      * destruct (IH _ _ _ H3) as (Hf2 & Hj2 & _).
        split; [by eapply world_frame_trans|]. split; [|done].
        intros x0 Hx. rewrite <- Hj1. auto.
    + pose proof (wf_with_job y _ (jf_gets y _) _ _ _ H1) as Hf1.
      split; [done|]. split; [|done].
      revert H1. unfold with_job. destruct (heap w !! y); [|by intros [= _ <-]].
      by intros [= _ <-].
Qed.

Lemma wf_jobs_tagged keep t l : preserves world_frame (jobs_tagged keep t l).
Proof. intros w r w' Hj. by apply jobs_tagged_spec in Hj as [? _]. Qed.

Lemma wf_get_jobs tg : preserves world_frame (get_jobs tg).
Proof.
  unfold get_jobs. wf_step; [wf_step|]. destruct tg; [apply wf_jobs_tagged|wf_step].
Qed.

Lemma wf_clear tg : preserves world_frame (clear tg).
Proof.
  intros w r w'. unfold clear. mred. destruct tg as [t|].
  - destruct (jobs_tagged false t _ w) as [[kept|x] w1] eqn:Hk.
    + destruct (jobs_tagged_spec _ _ _ _ _ _ Hk) as (Hf & Hj & Hres).
      unfold in_world. simpl. intros [= _ <-]. split; simpl.
      * apply Hf.
      * intros x Hx. left. by eapply Hres.
    + intros [= _ <-]. by apply jobs_tagged_spec in Hk as [? _].
  - unfold in_world. simpl. intros [= _ <-]. split; simpl; [eauto|].
    intros x Hx. by apply elem_of_nil in Hx.
Qed.

Lemma wf_min_from l : forall best, preserves world_frame (min_from best l).
Proof.
  induction l; intros best; simpl; [wf_step|].
  wf_step; [wf_step | apply IHl].
Qed.

Lemma wf_get_next_run tg : preserves world_frame (get_next_run tg).
Proof.
  unfold get_next_run. wf_step; [wf_step|]. destruct a; [wf_step|].
  wf_step; [apply wf_get_jobs|]. destruct a0; [wf_step|].
  wf_step; [apply wf_min_from | apply wf_with_job, jf_gets].
Qed.

Lemma wf_idle_seconds : preserves world_frame idle_seconds.
Proof.
  unfold idle_seconds. wf_step; [apply wf_get_next_run|].
  destruct a; [|wf_step].
  wf_step; [apply wf_get_next_run|]. repeat wf_step.
Qed.

(** No call of the interface undoes what [world_frame] records. *)
Lemma wf_call_api c : preserves world_frame (call_api c).
Proof.
  destruct c; simpl.
  - wf_step; [apply wf_every | wf_step].
  - apply wf_with_job, jf_call_method.
  - apply wf_run_pending.
  - apply wf_run_all.
  - wf_step; [apply wf_get_jobs | wf_step].
  - apply wf_clear.
  - apply wf_cancel_job.
  - wf_step; [apply wf_get_next_run | wf_step].
  - wf_step; [apply wf_idle_seconds | wf_step].
  - wf_step; [apply wf_timestamp | wf_step].
  - apply wf_set_timestamp.
Qed.

Lemma registered_have_next_run_step w w' :
  registered_have_next_run w -> world_frame w w' -> registered_have_next_run w'.
Proof.
  intros Hinv [Hheap Hjobs] r Hr.
  destruct (Hjobs r Hr) as [Hold | (j' & Hj' & Hn)].
  - destruct (Hinv r Hold) as (j & nr & Hj & Hnr).
    destruct (Hheap r j Hj) as (j' & Hj' & Hn).
    destruct (next_run j') as [nr'|] eqn:E; [eauto|].
    exfalso. apply Hn; [by rewrite Hnr | done].
  - destruct (next_run j') as [nr'|] eqn:E; [eauto | done].
Qed.

(** C10: in every state that calls of the interface can reach, each job
    in the scheduler's list is a job object whose [next_run] is set; so
    the assertion of [should_run] holds for it, and [__lt__] between two
    listed jobs (the comparison behind [sorted] and [min]) is a
    comparison of two datetimes. *)
Theorem registered_jobs_have_next_run (w : World) :
  reachable w ->
  registered_have_next_run w
  /\ (forall r, r ∈ jobs (sched (env w)) ->
        fst (with_job r should_run w) <> Raise AssertionError)
  /\ (forall a b, a ∈ jobs (sched (env w)) -> b ∈ jobs (sched (env w)) ->
        exists x y, Job_lt a b w = (dt_lt x y, w)).
Proof.
  intros Hreach.
  assert (Hinv : registered_have_next_run w).
  { induction Hreach as [rt ts s wall random Hinit | w w' c r _ IH Hcall].
    - intros r Hr. simpl in Hr. revert Hinit Hr. unfold Scheduler_init.
      repeat (destruct (_ && _); [discriminate|]). intros [= <-]. simpl.
      by rewrite elem_of_nil.
    - eapply registered_have_next_run_step; [exact IH|].
      eapply wf_call_api; eassumption. }
  split; [exact Hinv|]. split.
  - intros r Hr. destruct (Hinv r Hr) as (j & nr & Hj & Hnr).
    unfold with_job. rewrite Hj. unfold should_run. mred. rewrite Hnr.
    unfold scheduler_timestamp, in_env, timestamp, dt_ge, dt_cmp, res_bind.
    mred. simpl. repeat (case_match; simpl in *; simplify_eq; try discriminate).
  - intros a b Ha Hb.
    destruct (Hinv a Ha) as (ja & x & Hja & Hx).
    destruct (Hinv b Hb) as (jb & y & Hjb & Hy).
    exists x, y. unfold Job_lt. by rewrite Hja, Hjb, Hx, Hy.
Qed.

(** ** [Scheduler.run_pending] *)

Lemma dt_ge_same_tz (a b : datetime) :
  dt_tzinfo a = dt_tzinfo b -> dt_ge a b = Ok (dt_ticks b <=? dt_ticks a).
Proof.
  unfold dt_ge, dt_cmp. intros ->.
  assert (Hc : match dt_ticks a ?= dt_ticks b with Lt => false | _ => true end
               = (dt_ticks b <=? dt_ticks a)).
  { destruct (Z.compare_spec (dt_ticks a) (dt_ticks b));
      symmetry; first [apply Z.leb_le | apply Z.leb_gt]; lia. }
  destruct (dt_tzinfo b); simpl; [|by rewrite Hc].
  destruct (decide _); simpl; [by rewrite Hc | done].
Qed.

Lemma dt_lt_same_tz (a b : datetime) :
  dt_tzinfo a = dt_tzinfo b -> dt_lt a b = Ok (dt_ticks a <? dt_ticks b).
Proof.
  unfold dt_lt, dt_cmp. intros ->.
  assert (Hc : match dt_ticks a ?= dt_ticks b with Lt => true | _ => false end
               = (dt_ticks a <? dt_ticks b)).
  { destruct (Z.compare_spec (dt_ticks a) (dt_ticks b));
      symmetry; first [apply Z.ltb_lt | apply Z.ltb_ge]; lia. }
  destruct (dt_tzinfo b); simpl; [|by rewrite Hc].
  destruct (decide _); simpl; [by rewrite Hc | done].
Qed.

Lemma world_eta (w : World) : mk_World (heap w) (env w) = w.
Proof. by destruct w. Qed.

Section Simulated.

Variables (w : World) (now : datetime).
Hypothesis Hsim : is_realtime (sched (env w)) = false.
Hypothesis Hnow : _timestamp (sched (env w)) = Some now.
Hypothesis Hjobs : comparable_jobs w (dt_tzinfo now).

Lemma should_run_simulated (r : job_ref) :
  r ∈ jobs (sched (env w)) -> with_job r should_run w = (Ok (is_due w now r), w).
Proof.
  intros Hr. destruct (Hjobs r Hr) as (j & nr & Hj & Hs & Hnr & Htz).
  assert (Hrun : should_run (j, env w) = (Ok (is_due w now r), (j, env w))).
  { unfold should_run. mred. rewrite Hnr.
    rewrite (scheduler_timestamp_eq j _ _ _ _ Hs (timestamp_simulated _ Hsim)).
    rewrite Hnow. mred. rewrite dt_ge_same_tz by done.
    unfold is_due, next_run_ticks. by rewrite Hj, Hnr. }
  rewrite (with_job_eq _ _ _ _ _ _ _ Hj Hrun), insert_id by done.
  by rewrite world_eta.
Qed.

Lemma runnable_jobs_simulated (l : list job_ref) :
  (forall r, r ∈ l -> r ∈ jobs (sched (env w))) ->
  runnable_jobs l w = (Ok (List.filter (is_due w now) l), w).
Proof.
  induction l as [|r l IH]; intros Hl; simpl; [done|].
  rewrite (bind_ok _ _ _ _ _ (should_run_simulated r (Hl r (list_elem_of_here _ _)))).
  rewrite (bind_ok _ _ _ _ _ (IH (fun x Hx => Hl x (list_elem_of_further _ _ _ Hx)))).
  reflexivity.
Qed.

Lemma Job_lt_simulated (a b : job_ref) :
  a ∈ jobs (sched (env w)) -> b ∈ jobs (sched (env w)) ->
  Job_lt a b w = (Ok (next_run_ticks w a <? next_run_ticks w b), w).
Proof.
  intros Ha Hb.
  destruct (Hjobs a Ha) as (ja & x & Hja & _ & Hx & Htx).
  destruct (Hjobs b Hb) as (jb & y & Hjb & _ & Hy & Hty).
  unfold Job_lt, next_run_ticks. rewrite Hja, Hjb, Hx, Hy.
  by rewrite dt_lt_same_tz by congruence.
Qed.

Lemma insert_job_simulated (x : job_ref) (l : list job_ref) :
  x ∈ jobs (sched (env w)) -> (forall r, r ∈ l -> r ∈ jobs (sched (env w))) ->
  insert_job x l w = (Ok (insert_by (next_run_ticks w) x l), w).
Proof.
  intros Hx. induction l as [|y l IH]; intros Hl; simpl; [done|].
  rewrite (bind_ok _ _ _ _ _
             (Job_lt_simulated x y Hx (Hl y (list_elem_of_here _ _)))).
  destruct (_ <? _); [done|].
  by rewrite (bind_ok _ _ _ _ _ (IH (fun r Hr => Hl r (list_elem_of_further _ _ _ Hr)))).
Qed.

Lemma insert_by_perm key x l : insert_by key x l ≡ₚ x :: l.
Proof.
  induction l as [|y l IH]; simpl; [done|].
  destruct (_ <? _); [done|]. rewrite IH. apply Permutation_swap.
Qed.

Lemma insert_by_sorted key x l :
  Sorted (fun a b => key a <= key b) l ->
  Sorted (fun a b => key a <= key b) (insert_by key x l).
Proof.
  induction l as [|y l IH]; simpl; intros Hs.
  - repeat constructor.
  - destruct (Z.ltb_spec (key x) (key y)).
    + constructor; [done|]. constructor. lia.
    + apply Sorted_inv in Hs as [Hs Hhd]. constructor; [by apply IH|].
      destruct l as [|z l]; simpl.
      * constructor. lia.
      * destruct (Z.ltb_spec (key x) (key z)); constructor; try lia.
        by apply HdRel_inv in Hhd.
Qed.

Lemma sort_from_by_perm key l : forall acc, sort_from_by key acc l ≡ₚ acc ++ l.
Proof.
  induction l as [|x l IH]; intros acc; simpl; [by rewrite app_nil_r|].
  rewrite IH, insert_by_perm. simpl. apply Permutation_middle.
Qed.

Lemma sort_from_by_sorted key l : forall acc,
  Sorted (fun a b => key a <= key b) acc ->
  Sorted (fun a b => key a <= key b) (sort_from_by key acc l).
Proof.
  induction l as [|x l IH]; intros acc Hacc; simpl; [done|].
  by apply IH, insert_by_sorted.
Qed.

Lemma sorted_from_simulated (l : list job_ref) : forall acc,
  (forall r, r ∈ acc -> r ∈ jobs (sched (env w))) ->
  (forall r, r ∈ l -> r ∈ jobs (sched (env w))) ->
  sorted_from acc l w = (Ok (sort_from_by (next_run_ticks w) acc l), w).
Proof.
  induction l as [|x l IH]; intros acc Hacc Hl; simpl; [done|].
  rewrite (bind_ok _ _ _ _ _
             (insert_job_simulated x acc (Hl x (list_elem_of_here _ _)) Hacc)).
  apply IH.
  - intros r Hr. rewrite insert_by_perm in Hr.
    apply elem_of_cons in Hr as [-> | Hr]; [apply Hl; left | by apply Hacc].
  - intros r Hr. apply Hl. by right.
Qed.

End Simulated.

Lemma runs_kept_refl s : runs_kept s s.
Proof. reflexivity. Qed.

Lemma runs_kept_trans s1 s2 s3 : runs_kept s1 s2 -> runs_kept s2 s3 -> runs_kept s1 s3.
Proof. unfold runs_kept. congruence. Qed.

Lemma runs_kept_of_sched_frame kp s s' : sched_frame kp s s' -> runs_kept s s'.
Proof. intros Hfr. unfold runs_kept. by rewrite (fr_trace _ _ _ Hfr). Qed.

Ltac tr_step :=
  lazymatch goal with
  | |- preserves _ (bind _ _) =>
      apply preserves_bind; [apply runs_kept_trans | | intros ?]
  | |- preserves _ (ret _) => apply preserves_ret, runs_kept_refl
  | |- preserves _ (raise _) => apply preserves_raise, runs_kept_refl
  | |- preserves _ (lift _) => apply preserves_lift, runs_kept_refl
  | |- preserves _ (need _ _) => apply preserves_need, runs_kept_refl
  | |- preserves _ (gets _) => apply preserves_gets, runs_kept_refl
  | |- preserves _ self => apply preserves_gets, runs_kept_refl
  | |- preserves _ (log (EvCall _)) =>
      intros [? ?] ? ? [= _ <-]; unfold runs_kept; simpl;
      rewrite runs_app; simpl; apply app_nil_r
  | |- preserves _ scheduler_timestamp =>
      intros ? ? ? Hs;
      apply (runs_kept_of_sched_frame true), (frame_scheduler_timestamp true _ _ _ Hs)
  | |- preserves _ _schedule_next_run =>
      intros ? ? ? Hs;
      apply (runs_kept_of_sched_frame false), (frame__schedule_next_run _ _ _ Hs)
  | |- preserves _ (_is_overdue _) =>
      intros ? ? ? Hs; rewrite (_is_overdue_state _ _ _ _ Hs); apply runs_kept_refl
  | |- preserves _ (set_self _) => by intros [? ?] ? ? [= _ <-]
  | |- preserves _ (match ?x with _ => _ end) => destruct x
  end.

(** Whatever its outcome, [run] adds itself, and nothing else, to the
    entered runs. *)
Lemma run_runs (me : job_ref) (s : JS) r s' :
  run me s = (r, s') -> runs (trace (snd s')) = runs (trace (snd s)) ++ [me].
Proof.
  unfold run. intros Hb.
  apply bind_inv in Hb as [(a & s1 & Hlog & Htail) | (x & Hlog & _)];
    [|discriminate].
  injection Hlog as _ <-.
  match type of Htail with
  | ?m _ = _ => assert (Hk : preserves runs_kept m) by repeat tr_step
  end.
  rewrite (Hk _ _ _ Htail). simpl. by rewrite runs_app.
Qed.

Lemma _run_job_runs (x : job_ref) (w : World) j r w' :
  heap w !! x = Some j -> _run_job x w = (r, w') ->
  runs (trace (env w')) = runs (trace (env w)) ++ [x].
Proof.
  intros Hj. unfold _run_job, with_job, bind. rewrite Hj.
  destruct (run x (j, env w)) as [[v|e] [j' e']] eqn:Hrun;
    pose proof (run_runs _ _ _ _ Hrun) as Hr; simpl in *.
  - destruct (is_cancel v); by intros [= _ <-].
  - by intros [= _ <-].
Qed.

Lemma for_each__run_job_runs (l : list job_ref) : forall w r w',
  (forall x, x ∈ l -> is_Some (heap w !! x)) ->
  for_each _run_job l w = (r, w') ->
  exists k, runs (trace (env w')) = runs (trace (env w)) ++ take k l
            /\ (r = Ok tt -> k = length l).
Proof.
  induction l as [|x l IH]; intros w r w' Hl; simpl.
  - intros [= <- <-]. exists 0%nat. by rewrite app_nil_r.
  - intros Hb. destruct (Hl x) as [j Hj]; [by left|].
    apply bind_inv in Hb as [([] & w1 & H1 & H2) | (e & H1 & ->)].
    + pose proof (_run_job_runs _ _ _ _ _ Hj H1) as Hr1.
      destruct (wf__run_job x _ _ _ H1) as [Hheap _].
      destruct (IH w1 r w') as (k & Hk & Hlen); [|done|].
      { intros y Hy. destruct (Hl y) as [jy Hjy]; [by right|].
        destruct (Hheap y jy Hjy) as (jy' & -> & _). eauto. }
      exists (S k). split; [|intros ->; by rewrite Hlen].
      rewrite Hk, Hr1. simpl. by rewrite <- app_assoc.
    + exists 1%nat. split; [|discriminate].
      simpl. rewrite take_0. by eapply _run_job_runs.
Qed.

(** On a simulated clock, [run_pending] enters [run] on the registered
    jobs that are due, in ascending order of [next_run] as it was before
    the first run.  It runs all of them when it returns, and stops at
    the first run that raises. *)
Theorem run_pending_runs_the_due_jobs (w : World) (now : datetime) :
  is_realtime (sched (env w)) = false ->
  _timestamp (sched (env w)) = Some now ->
  comparable_jobs w (dt_tzinfo now) ->
  forall r w', run_pending w = (r, w') ->
    exists L k,
      L ≡ₚ due_jobs w now
      /\ Sorted (fun a b => next_run_ticks w a <= next_run_ticks w b) L
      /\ runs (trace (env w')) = runs (trace (env w)) ++ take k L
      /\ (r = Ok tt -> k = length L)
      /\ (forall x, x ∈ L -> is_due w now x = true).
Proof.
  intros Hsim Hnow Hjobs r w'. unfold run_pending.
  rewrite (bind_ok (gets _) _ w (jobs (sched (env w))) w eq_refl).
  rewrite (bind_ok _ _ _ _ _
             (runnable_jobs_simulated w now Hsim Hnow Hjobs _ (fun _ Hr => Hr))).
  fold (due_jobs w now).
  assert (Hdue : forall x, x ∈ due_jobs w now -> x ∈ jobs (sched (env w))).
  { intros x Hx. apply list_elem_of_In, filter_In in Hx as [Hx _].
    by apply list_elem_of_In. }
  unfold sorted.
  rewrite (bind_ok _ _ _ _ _
             (sorted_from_simulated w now Hjobs (due_jobs w now) []
                ltac:(intros ? Hx; by apply elem_of_nil in Hx) Hdue)).
  set (L := sort_from_by (next_run_ticks w) [] (due_jobs w now)).
  assert (HL : L ≡ₚ due_jobs w now) by apply sort_from_by_perm.
  intros Hloop.
  destruct (for_each__run_job_runs L w r w') as (k & Hk & Hlen); [|done|].
  { intros x Hx. rewrite HL in Hx.
    destruct (Hjobs x (Hdue x Hx)) as (j & nr & -> & _). eauto. }
  exists L, k. repeat split; try done.
  - apply sort_from_by_sorted. constructor.
  - intros x Hx. rewrite HL in Hx.
    by apply list_elem_of_In, filter_In in Hx as [_ Hx].
Qed.

(** ** Rescheduling moves forward *)

Lemma td_of_unit_cases (u : string) (k : Z) (p : timedelta) :
  td_of_unit u k = Ok p ->
  (u = "seconds"%string /\ p = k * SECOND) \/ (u = "minutes"%string /\ p = k * MINUTE)
  \/ (u = "hours"%string /\ p = k * HOUR) \/ (u = "days"%string /\ p = k * DAY)
  \/ (u = "weeks"%string /\ p = k * WEEK).
Proof.
  unfold td_of_unit.
  destruct (String.eqb_spec u "seconds");
    [intros Hp; apply td_make_inv in Hp; tauto|].
  destruct (String.eqb_spec u "minutes");
    [intros Hp; apply td_make_inv in Hp; tauto|].
  destruct (String.eqb_spec u "hours");
    [intros Hp; apply td_make_inv in Hp; tauto|].
  destruct (String.eqb_spec u "days");
    [intros Hp; apply td_make_inv in Hp; tauto|].
  destruct (String.eqb_spec u "weeks");
    [intros Hp; apply td_make_inv in Hp; tauto|].
  discriminate.
Qed.

Lemma effective_interval_lower (j : Job) (e : Env) k s :
  effective_interval (j, e) = (Ok k, s) ->
  interval j <= k /\ fst s = j /\ sched (snd s) = sched e.
Proof.
  unfold effective_interval. mred. destruct (latest j) as [l|].
  - destruct (Z.leb_spec (interval j) l); simpl; [|discriminate].
    unfold in_env, randint. simpl.
    destruct (Z.ltb_spec l (interval j)); [lia|].
    intros [= <- <-]. simpl. repeat split. lia.
  - intros [= <- <-]. simpl. repeat split. lia.
Qed.

(** From [H : bind m k s = (Ok _, _)]: [m] returned [a] in state [s]. *)
Ltac ok_inv H a s Hm :=
  apply bind_inv in H as [(a & s & Hm & H) | (? & _ & [=])].

(** On a simulated clock and without time zone, a computation that
    returns went through the assignment of [now + period] to
    [next_run]. *)
Lemma _schedule_next_run_inv (j : Job) (e : Env) (now : datetime) j' e' :
  is_realtime (sched e) = false -> _timestamp (sched e) = Some now ->
  at_time_zone j = None ->
  _schedule_next_run (j, e) = (Ok tt, (j', e')) ->
  exists k u p nr0 e0,
    interval j <= k /\ unit j = Some u /\ td_of_unit u k = Ok p
    /\ dt_add now p = Ok nr0
    /\ anchors now p (set_next_run (Some nr0) (set_period (Some p) j), e0)
       = (Ok tt, (j', e')).
Proof.
  intros Hrt Hts Htz Hs. unfold _schedule_next_run in Hs.
  ok_inv Hs j0 s0 Hself. injection Hself as <- <-.
  fold (valid_unit (unit j)) in Hs.
  destruct (valid_unit (unit j)) eqn:Hvu; cbn [negb] in Hs; [|discriminate Hs].
  destruct (unit j) as [u|] eqn:Hu; [|discriminate Hvu].
  ok_inv Hs k s1 Heff. destruct s1 as [j1 e1].
  apply effective_interval_lower in Heff as (Hk & Hj1 & Hs1). simpl in Hj1, Hs1.
  subst j1. ok_inv Hs t s2 Hnow.
  unfold reference_now in Hnow. ok_inv Hnow j0 s0 Hself. injection Hself as <- <-.
  rewrite Htz in Hnow. unfold scheduler_timestamp in Hnow.
  ok_inv Hnow j0 s0 Hself. injection Hself as <- <-.
  destruct (scheduler j); [|discriminate Hnow].
  unfold in_env in Hnow. cbn [fst snd] in Hnow.
  rewrite timestamp_simulated in Hnow by (by rewrite Hs1).
  rewrite Hs1, Hts in Hnow. injection Hnow as <- <-.
  ok_inv Hs p s3 Hp. change (default ""%string (Some u)) with u in Hp.
  unfold lift in Hp.
  destruct (td_of_unit u k) as [p0|] eqn:Hp0; [|discriminate Hp].
  injection Hp as <- <-.
  ok_inv Hs x s4 Hset. injection Hset as _ <-. cbn [fst snd] in Hs.
  ok_inv Hs now' s5 Hneed. injection Hneed as <- <-.
  ok_inv Hs nr0 s6 Hadd. unfold lift in Hadd.
  destruct (dt_add now p0) as [d|] eqn:Hd; [|discriminate Hadd].
  injection Hadd as <- <-.
  ok_inv Hs y s7 Hset. injection Hset as _ <-. cbn [fst snd] in Hs.
  exists k, u, p0, d, e1. repeat split; try done.
Qed.

Lemma lift_inv {S A} (x : Res A) (s s' : S) (a : A) :
  lift x s = (Ok a, s') -> x = Ok a /\ s' = s.
Proof. unfold lift. by intros [= -> <-]. Qed.

Lemma the_next_run_inv (j : Job) (e : Env) (nr : datetime) s' :
  the_next_run (j, e) = (Ok nr, s') -> next_run j = Some nr /\ s' = (j, e).
Proof.
  unfold the_next_run. mred. destruct (next_run j); [|discriminate].
  by intros [= -> <-].
Qed.

Lemma dt_add_inv (a d : datetime) (td : timedelta) :
  dt_add a td = Ok d ->
  dt_ticks d = dt_ticks a + td /\ dt_tzinfo d = dt_tzinfo a
  /\ 0 <= dt_ticks d < MAXORDINAL * DAY.
Proof.
  unfold dt_add. destruct (Z.leb_spec 0 (dt_ticks a + td)); [|discriminate].
  destruct (Z.ltb_spec (dt_ticks a + td) (MAXORDINAL * DAY)); [|discriminate].
  intros [= <-]. simpl. repeat split; try done; lia.
Qed.

Lemma dt_sub_td_inv (a d : datetime) (td : timedelta) :
  dt_sub_td a td = Ok d ->
  dt_ticks d = dt_ticks a - td /\ dt_tzinfo d = dt_tzinfo a.
Proof.
  unfold dt_sub_td, td_neg. destruct (td_make (- td)) as [n|] eqn:Hn; [|discriminate].
  apply td_make_inv in Hn as ->. simpl. intros Hd.
  apply dt_add_inv in Hd as (-> & -> & _). split; [lia|done].
Qed.

Lemma dt_replace_inv (a d : datetime) (oh om os ous : option Z) :
  dt_replace a oh om os ous = Ok d ->
  let h := default (dt_hour a) oh in
  let m := default (dt_minute a) om in
  let s := default (dt_second a) os in
  let us := default (dt_microsecond a) ous in
  0 <= h <= 23 /\ 0 <= m <= 59 /\ 0 <= s <= 59 /\ 0 <= us <= 999999
  /\ dt_ticks d = dt_ticks a / DAY * DAY + clock_us h m s us
  /\ dt_tzinfo d = dt_tzinfo a.
Proof.
  unfold dt_replace. cbv zeta. intros Hd.
  destruct (_ && _) eqn:Hc in Hd; [|discriminate].
  injection Hd as <-. simpl.
  repeat (apply andb_prop in Hc as [Hc ?]). repeat split; try done; lia.
Qed.

(** A weekday anchor alone: the next run is between one and seven days
    after the reference instant. *)
Lemma weekday_anchor_later (j : Job) (e : Env) (now nr0 : datetime) (sd : string)
    (p : timedelta) s' :
  start_day j = Some sd -> next_run j = Some nr0 -> dt_add now p = Ok nr0 ->
  weekday_anchor p (j, e) = (Ok tt, s') ->
  exists nr, s' = (set_next_run (Some nr) j, e)
             /\ dt_tzinfo nr = dt_tzinfo now /\ dt_ticks now < dt_ticks nr.
Proof.
  intros Hsd Hnr Hadd Hw. unfold weekday_anchor in Hw.
  ok_inv Hw j0 s0 Hself. injection Hself as <- <-. rewrite Hsd in Hw.
  destruct (negb _); [discriminate Hw|].
  destruct (index_of sd weekdays) as [wd|] eqn:Hwd; [|discriminate Hw].
  apply index_of_weekdays_range in Hwd.
  ok_inv Hw nr s1 Hthe. apply the_next_run_inv in Hthe as [Hthe ->].
  assert (nr = nr0) as -> by congruence.
  ok_inv Hw td s2 Htd. apply lift_inv in Htd as [Htd ->].
  ok_inv Hw delta s3 Hdelta. apply lift_inv in Hdelta as [Hdelta ->].
  ok_inv Hw nr' s4 Hnr'. apply lift_inv in Hnr' as [Hnr' ->].
  injection Hw as <-. exists nr'. split; [done|].
  apply td_make_inv in Htd as ->. apply td_make_inv in Hdelta as ->.
  apply dt_add_inv in Hnr' as (Ht' & -> & _).
  apply dt_add_inv in Hadd as (Ht0 & -> & _). split; [done|].
  pose proof (dt_weekday_range nr0) as Hr.
  rewrite Ht', Ht0. destruct (Z.leb_spec (wd - dt_weekday nr0) 0); zlia.
Qed.

Ltac eval_str_in H :=
  unfold str_is in H;
  repeat match type of H with
         | context [str_in (Some ?a) ?l] =>
             let b := eval vm_compute in (str_in (Some a) l) in
             change (str_in (Some a) l) with b in H
         end.

(** A clock anchor alone: the next run is strictly after the reference
    instant. *)
Lemma clock_anchor_later (j : Job) (e : Env) (now nr0 : datetime) (at_ : time)
    (u : string) (k : Z) (p : timedelta) j' e' :
  start_day j = None -> at_time j = Some at_ -> at_time_zone j = None ->
  unit j = Some u -> 1 <= k -> td_of_unit u k = Ok p ->
  next_run j = Some nr0 -> dt_add now p = Ok nr0 ->
  clock_anchor now p (j, e) = (Ok tt, (j', e')) ->
  exists nr, next_run j' = Some nr
             /\ dt_tzinfo nr = dt_tzinfo now /\ dt_ticks now < dt_ticks nr.
Proof.
  intros Hsd Hat Htz Hu Hk Hp Hnr Hadd Hc. unfold clock_anchor in Hc.
  ok_inv Hc j0 s0 Hself. injection Hself as <- <-.
  rewrite Hat, Hsd, Hu in Hc. cbn [is_None not_None] in Hc.
  rewrite andb_true_r, !orb_false_r in Hc.
  apply dt_add_inv in Hadd as (Ht0 & Htz0 & Hr0).
  assert (Hnow : dt_ticks now
                 = dt_ticks now / HOUR * HOUR + dt_minute now * MINUTE
                   + dt_second now * SECOND + dt_microsecond now
                 /\ 0 <= dt_minute now <= 59 /\ 0 <= dt_second now <= 59
                 /\ 0 <= dt_microsecond now <= 999999).
  { unfold dt_minute, dt_second, dt_microsecond. zlia. }
  destruct Hnow as (Hnow & Hnm & Hns & Hnus).
  apply td_of_unit_cases in Hp
    as [[-> ->] | [[-> ->] | [[-> ->] | [[-> ->] | [-> ->]]]]];
    eval_str_in Hc; cbn [negb] in Hc; try discriminate Hc;
    ok_inv Hc nr s1 Hthe; apply the_next_run_inv in Hthe as [Hthe ->];
    assert (nr = nr0) as -> by congruence;
    ok_inv Hc nr1 s2 Hrep; apply lift_inv in Hrep as [Hrep ->];
    apply dt_replace_inv in Hrep as (Hh & Hm & Hs & _ & Ht1 & Htz1);
    cbn [from_option id] in Hh, Hm, Hs, Ht1;
    ok_inv Hc x s3 Hset; injection Hset as _ <-; cbn [fst snd] in Hc;
    ok_inv Hc lr s4 Hlr; unfold _to_at_timezone in Hlr;
    ok_inv Hlr j0 s0 Hself; injection Hself as <- <-;
    cbn [at_time_zone set_next_run] in Hlr; rewrite Htz in Hlr;
    injection Hlr as <- <-;
    ok_inv Hc anew s5 Hfresh.
  all: assert (s5 = (set_next_run (Some nr1) j, e)) as ->
         by (destruct (last_run j) as [lr0|];
             [ ok_inv Hfresh dd s6 Hd; apply lift_inv in Hd as [_ ->];
               by injection Hfresh as _ <-
             | by injection Hfresh as _ <- ]);
       clear Hfresh.
  - (* minutes *)
    cbn [andb] in Hc.
    assert (Hkeep : dt_ticks nr1
                    = dt_ticks now / MINUTE * MINUTE + k * MINUTE
                      + t_second at_ * SECOND).
    { rewrite Ht1, Ht0. unfold dt_hour, dt_minute. zlia. }
    destruct anew; [destruct (Z.ltb_spec (dt_second now) (t_second at_))|].
    + ok_inv Hc nr' s6 Hsub. apply lift_inv in Hsub as [Hsub ->].
      injection Hc as <- <-. apply dt_sub_td_inv in Hsub as [Ht' Htz'].
      exists nr'. split; [done|]. split; [congruence|].
      unfold dt_second in *. zlia.
    + injection Hc as <- <-. exists nr1. split; [done|]. split; [congruence|].
      unfold dt_second in *. zlia.
    + injection Hc as <- <-. exists nr1. split; [done|]. split; [congruence|].
      unfold dt_second in *. zlia.
  - (* hours *)
    cbn [andb] in Hc.
    assert (Hkeep : dt_ticks nr1
                    = dt_ticks now / HOUR * HOUR + k * HOUR
                      + t_minute at_ * MINUTE + t_second at_ * SECOND).
    { rewrite Ht1, Ht0. unfold dt_hour. zlia. }
    destruct anew;
      [destruct ((dt_minute now <? t_minute at_)
                 || (t_minute at_ =? dt_minute now)
                    && (dt_second now <? t_second at_)) eqn:Hcond|].
    + ok_inv Hc nr' s6 Hsub. apply lift_inv in Hsub as [Hsub ->].
      injection Hc as <- <-. apply dt_sub_td_inv in Hsub as [Ht' Htz'].
      exists nr'. split; [done|]. split; [congruence|].
      apply orb_prop in Hcond as [Hlt | Heq].
      * apply Z.ltb_lt in Hlt. zlia.
      * apply andb_prop in Heq as [Heq Hlt].
        apply Z.eqb_eq in Heq. apply Z.ltb_lt in Hlt. zlia.
    + injection Hc as <- <-. exists nr1. split; [done|]. split; [congruence|].
      zlia.
    + injection Hc as <- <-. exists nr1. split; [done|]. split; [congruence|].
      zlia.
  - (* days *)
    assert (Hkeep : dt_ticks nr1
                    = dt_ticks now / DAY * DAY + k * DAY
                      + clock_us (t_hour at_) (t_minute at_) (t_second at_) 0).
    { rewrite Ht1, Ht0. zlia. }
    destruct anew;
      [destruct (true && time_gt (dt_time nr1) (dt_time now)
                 && (interval j =? 1)) eqn:Hcond|].
    + ok_inv Hc nr' s6 Hsub. apply lift_inv in Hsub as [Hsub ->].
      injection Hc as <- <-. apply dt_sub_td_inv in Hsub as [Ht' Htz'].
      exists nr'. split; [done|]. split; [congruence|].
      apply andb_prop in Hcond as [Hgt _]. cbn [andb] in Hgt.
      rewrite time_gt_us in Hgt by apply dt_time_valid.
      rewrite !dt_time_us in Hgt. apply Z.ltb_lt in Hgt. zlia.
    + cbn [andb] in Hc. injection Hc as <- <-.
      exists nr1. split; [done|]. split; [congruence|]. zlia.
    + injection Hc as <- <-. exists nr1. split; [done|]. split; [congruence|].
      zlia.
Qed.

Lemma singly_anchored_inv (j : Job) :
  singly_anchored j = true ->
  1 <= interval j /\ at_time_zone j = None
  /\ (start_day j = None \/ at_time j = None).
Proof.
  unfold singly_anchored. intros Hj.
  apply andb_prop in Hj as [Hj Han]. apply andb_prop in Hj as [Hi Htz].
  apply Z.leb_le in Hi. split; [done|].
  split; [by destruct (at_time_zone j)|].
  destruct (start_day j); [|by left]. destruct (at_time j); [done|by right].
Qed.

(** On a simulated clock, the next run of a singly anchored job is
    computed strictly after the reference instant. *)
Lemma _schedule_next_run_later (j : Job) (e : Env) (now : datetime) j' e' :
  is_realtime (sched e) = false -> _timestamp (sched e) = Some now ->
  singly_anchored j = true ->
  _schedule_next_run (j, e) = (Ok tt, (j', e')) ->
  exists nr, next_run j' = Some nr
             /\ dt_tzinfo nr = dt_tzinfo now /\ dt_ticks now < dt_ticks nr.
Proof.
  intros Hrt Hts Hj Hs. apply singly_anchored_inv in Hj as (Hi & Htz & Han).
  apply (_schedule_next_run_inv _ _ now) in Hs
    as (k & u & p & nr0 & e0 & Hk & Hu & Hp & Hadd & Ha); try done.
  set (j0 := set_next_run (Some nr0) (set_period (Some p) j)) in Ha.
  unfold anchors in Ha. ok_inv Ha x1 s1 Hw.
  ok_inv Ha x2 s2 Hn. ok_inv Ha x3 s3 Hc. ok_inv Ha x4 s4 Hsw.
  destruct x1, x2, x3, x4.
  destruct s3 as [j3 e3].
  assert (Hskip : start_day j3 = None \/ at_time j3 = None ->
                  at_time_zone j3 = None -> j' = j3).
  { intros Han3 Htz3.
    assert (s4 = (j3, e3)) as ->.
    { unfold same_week in Hsw. ok_inv Hsw j4 s Hself. injection Hself as <- <-.
      destruct Han3 as [E|E]; rewrite E in Hsw; cbn [not_None is_None negb andb] in Hsw;
        rewrite ?andb_false_r in Hsw; by injection Hsw as <-. }
    unfold to_native in Ha. ok_inv Ha j4 s Hself. injection Hself as <- <-.
    rewrite Htz3 in Ha. by injection Ha as <-. }
  assert (s2 = s1) as ->.
  { unfold normalize_next_run in Hn. ok_inv Hn j4 s Hself. injection Hself as <-.
    pose proof (frame_weekday_anchor true _ _ _ _ Hw) as Hfr.
    pose proof (fr_at_time_zone _ _ _ Hfr) as E. simpl in E.
    rewrite <- H0 in Hn. rewrite E, Htz in Hn. by injection Hn as <-. }
  pose proof (frame_clock_anchor true _ _ _ _ _ Hc) as Hfc.
  destruct (start_day j) as [sd|] eqn:Hsd.
  - destruct Han as [|Hat]; [done|].
    destruct (weekday_anchor_later j0 e0 now nr0 sd p s1 Hsd eq_refl Hadd Hw)
      as (nr & -> & Htzn & Hlt).
    unfold clock_anchor in Hc. ok_inv Hc j4 s Hself. injection Hself as <- <-.
    change (at_time (set_next_run (Some nr) j0)) with (at_time j) in Hc.
    rewrite Hat in Hc. injection Hc as <- <-.
    rewrite (Hskip ltac:(by right) ltac:(done)). by exists nr.
  - assert (s1 = (j0, e0)) as ->.
    { unfold weekday_anchor in Hw. ok_inv Hw j4 s Hself. injection Hself as <- <-.
      change (start_day j0) with (start_day j) in Hw. rewrite Hsd in Hw.
      by injection Hw as <-. }
    pose proof (fr_start_day _ _ _ Hfc) as Hsd3.
    pose proof (fr_at_time_zone _ _ _ Hfc) as Htz3. simpl in Hsd3, Htz3.
    rewrite Hskip; [| left; by rewrite Hsd3 | by rewrite Htz3].
    destruct (at_time j) as [at_|] eqn:Hat.
    + apply (clock_anchor_later j0 e0 now nr0 at_ u k p j3 e3 Hsd Hat Htz Hu);
        try done; lia.
    + unfold clock_anchor in Hc. ok_inv Hc j4 s Hself. injection Hself as <- <-.
      change (at_time j0) with (at_time j) in Hc. rewrite Hat in Hc.
      injection Hc as <- <-. exists nr0. split; [done|].
      apply dt_add_inv in Hadd as (Ht0 & Htz0 & _). split; [done|].
      apply td_of_unit_cases in Hp
        as [[-> ->] | [[-> ->] | [[-> ->] | [[-> ->] | [-> ->]]]]]; zlia.
Qed.

Lemma scheduler_timestamp_simulated_inv (j : Job) (e : Env) (now : datetime) t s :
  is_realtime (sched e) = false -> _timestamp (sched e) = Some now ->
  scheduler_timestamp (j, e) = (Ok t, s) -> t = Some now /\ s = (j, e).
Proof.
  intros Hrt Hts Hs. unfold scheduler_timestamp in Hs.
  ok_inv Hs j0 s0 Hself. injection Hself as <- <-.
  destruct (scheduler j); [|discriminate Hs].
  unfold in_env in Hs. cbn [fst snd] in Hs.
  rewrite timestamp_simulated, Hts in Hs by done. by injection Hs as <- <-.
Qed.

(** On a simulated clock, a run of a singly anchored job that returns
    either found the job overdue, and then returns [CancelJob] with the
    job as it was, or leaves the job with its next run strictly after the
    current instant. *)
Lemma run_simulated (me : job_ref) (j : Job) (e : Env) (now : datetime) v j' e' :
  is_realtime (sched e) = false -> _timestamp (sched e) = Some now ->
  singly_anchored j = true ->
  run me (j, e) = (Ok v, (j', e')) ->
  sched e' = sched e /\ scheduler j' = scheduler j /\ singly_anchored j' = true
  /\ ((j' = j /\ is_cancel v = true)
      \/ exists nr, next_run j' = Some nr
                    /\ dt_tzinfo nr = dt_tzinfo now /\ dt_ticks now < dt_ticks nr).
Proof.
  intros Hrt Hts Hj Hr. unfold run in Hr.
  ok_inv Hr x s1 Hlog. injection Hlog as _ <-. cbn [fst snd] in Hr.
  fold (logged (EvRun me) e) in Hr.
  ok_inv Hr t s2 Ht.
  apply (scheduler_timestamp_simulated_inv _ _ now) in Ht as [-> ->]; try done.
  ok_inv Hr overdue s3 Hov. apply _is_overdue_state in Hov as ->.
  destruct overdue.
  { injection Hr as <- <- <-. repeat split; try done. by left. }
  ok_inv Hr j0 s0 Hself. injection Hself as <- <-.
  ok_inv Hr f s4 Hf. destruct (job_func j) as [f0|]; [|discriminate Hf].
  injection Hf as <- <-.
  ok_inv Hr y s5 Hlog. injection Hlog as _ <-. cbn [fst snd] in Hr.
  fold (logged (EvCall f0) (logged (EvRun me) e)) in Hr.
  ok_inv Hr history s6 Hh. injection Hh as <- <-.
  ok_inv Hr ret_ s7 Hcall. apply lift_inv in Hcall as [_ ->].
  ok_inv Hr t s8 Ht.
  apply (scheduler_timestamp_simulated_inv _ _ now) in Ht as [-> ->]; try done.
  ok_inv Hr z s9 Hset. injection Hset as _ <-. cbn [fst snd] in Hr.
  ok_inv Hr z' s10 Hsch. destruct z', s10 as [j2 e2].
  ok_inv Hr j0 s0 Hself. injection Hself as <- <-.
  ok_inv Hr late s11 Hlate. apply _is_overdue_state in Hlate as ->.
  assert (j' = j2 /\ e' = e2) as [-> ->]
    by (destruct late; by injection Hr as _ <- <-).
  pose proof (frame__schedule_next_run _ _ _ Hsch) as Hfr.
  pose proof (fr_sched _ _ _ Hfr) as E1.
  pose proof (fr_scheduler _ _ _ Hfr) as E2.
  pose proof (fr_interval _ _ _ Hfr) as E3.
  pose proof (fr_at_time_zone _ _ _ Hfr) as E4.
  pose proof (fr_start_day _ _ _ Hfr) as E5.
  pose proof (fr_at_time _ _ _ Hfr) as E6.
  simpl in E1, E2, E3, E4, E5, E6.
  repeat split; try done.
  - unfold singly_anchored. by rewrite E3, E4, E5, E6.
  - right. by apply (_schedule_next_run_later _ _ now) in Hsch.
Qed.

(** ** Calling [run_pending] again *)

Lemma occurrences_remove_first (x r : job_ref) (l : list job_ref) :
  occurrences r (remove_first x l)
  = if decide (r = x) then Nat.pred (occurrences r l) else occurrences r l.
Proof.
  unfold occurrences. induction l as [|y l IH]; simpl.
  - by destruct (decide _).
  - destruct (decide (x = y)) as [<- | Hxy].
    + destruct (decide (r = x)) as [-> | Hrx].
      * by destruct (Nat.eq_dec x x).
      * destruct (Nat.eq_dec x r); [congruence | done].
    + simpl. rewrite IH. destruct (decide (r = x)) as [-> | Hrx].
      * destruct (Nat.eq_dec y x); [congruence | done].
      * done.
Qed.

Lemma occurrences_filter (f : job_ref -> bool) (r : job_ref) (l : list job_ref) :
  f r = true -> occurrences r (List.filter f l) = occurrences r l.
Proof.
  intros Hf. unfold occurrences. induction l as [|y l IH]; simpl; [done|].
  destruct (Nat.eq_dec y r) as [-> | Hyr].
  - rewrite Hf. simpl. destruct (Nat.eq_dec r r); [|done]. by rewrite IH.
  - destruct (f y); simpl; [|done]. by destruct (Nat.eq_dec y r).
Qed.

Lemma occurrences_elem_of (r : job_ref) (l : list job_ref) :
  r ∈ l -> (0 < occurrences r l)%nat.
Proof.
  intros Hr. apply list_elem_of_In in Hr.
  apply (count_occ_In Nat.eq_dec) in Hr. unfold occurrences. lia.
Qed.

Lemma _run_job_settled (now : datetime) (J0 rest : list job_ref) (x : job_ref)
    (w w' : World) :
  settled now J0 (x :: rest) w -> x ∈ J0 ->
  _run_job x w = (Ok tt, w') -> settled now J0 rest w'.
Proof.
  intros (Hrt & Hts & Hsub & Hgood & Hdue) Hx Hrun.
  destruct (Hgood x Hx) as (j & nrx & Hj & Hsj & Haj & Hnrx & Htzx).
  unfold _run_job in Hrun. ok_inv Hrun v w1 Hwj.
  unfold with_job in Hwj. rewrite Hj in Hwj.
  destruct (run x (j, env w)) as [[v'|?] [j' e']] eqn:Hrn; [|discriminate Hwj].
  injection Hwj as -> <-.
  destruct (run_simulated _ _ _ now _ _ _ Hrt Hts Haj Hrn) as (Hs' & Hsj' & Haj' & Hcase).
  set (w1 := mk_World (<[x:=j']> (heap w)) e') in Hrun.
  assert (Hw' : heap w' = <[x:=j']> (heap w)
                /\ is_realtime (sched (env w')) = false
                /\ _timestamp (sched (env w')) = Some now
                /\ ((is_cancel v = false
                     /\ jobs (sched (env w')) = jobs (sched (env w)))
                    \/ (is_cancel v = true
                        /\ jobs (sched (env w'))
                           = remove_first x (jobs (sched (env w)))))).
  { destruct (is_cancel v) eqn:Hcv.
    - injection Hrun as <-. simpl. rewrite Hs'. repeat split; try done.
      right. done.
    - injection Hrun as <-. simpl. rewrite Hs'. repeat split; try done.
      by left. }
  destruct Hw' as (Hheap & Hrt' & Hts' & Hjobs').
  assert (Hsub' : forall r, r ∈ jobs (sched (env w')) -> r ∈ jobs (sched (env w))).
  { intros r. destruct Hjobs' as [[_ ->] | [_ ->]]; [done | apply elem_of_remove_first]. }
  assert (Hocc : forall r, (occurrences r (jobs (sched (env w')))
                            <= occurrences r (jobs (sched (env w))))%nat).
  { intros r. destruct Hjobs' as [[_ ->] | [_ ->]]; [done|].
    rewrite occurrences_remove_first. destruct (decide _); lia. }
  repeat split; try done.
  - intros r Hr. by apply Hsub, Hsub'.
  - intros r Hr. rewrite Hheap. destruct (decide (r = x)) as [-> | Hrx].
    + rewrite lookup_insert_eq.
      destruct Hcase as [[-> _] | (nr & Hnr & Htz & _)]; [by exists j, nrx|].
      exists j', nr. repeat split; try done. congruence.
    + rewrite lookup_insert_ne by done. by apply Hgood.
  - intros r Hr. unfold is_due, next_run_ticks in Hr. rewrite Hheap in Hr.
    destruct (decide (r = x)) as [-> | Hrx].
    + rewrite lookup_insert_eq in Hr.
      destruct Hcase as [[-> Hcv] | (nr & Hnr & _ & Hlt)].
      * destruct Hjobs' as [[E _] | [_ E]]; [congruence|].
        assert (Hd : is_due w now x = true)
          by (unfold is_due, next_run_ticks; by rewrite Hj).
        specialize (Hdue x Hd). rewrite E, occurrences_remove_first.
        destruct (decide (x = x)); [|done].
        unfold occurrences in *. simpl in Hdue.
        destruct (Nat.eq_dec x x); [lia | done].
      * rewrite Hnr in Hr. apply Z.leb_le in Hr. lia.
    + rewrite lookup_insert_ne in Hr by done.
      specialize (Hdue r Hr). specialize (Hocc r).
      unfold occurrences in *. simpl in Hdue.
      destruct (Nat.eq_dec x r); [congruence | lia].
Qed.

Lemma for_each__run_job_settled (now : datetime) (J0 : list job_ref)
    (rest : list job_ref) : forall w w',
  settled now J0 rest w -> (forall x, x ∈ rest -> x ∈ J0) ->
  for_each _run_job rest w = (Ok tt, w') -> settled now J0 [] w'.
Proof.
  induction rest as [|x rest IH]; intros w w' Hw Hrest; simpl.
  - by intros [= <-].
  - intros Hb. ok_inv Hb u w1 H1. destruct u.
    apply (IH w1 w'); [|intros y Hy; apply Hrest; by right|done].
    apply (_run_job_settled now J0 rest x w w1); [done | apply Hrest; by left | done].
Qed.

(** On a simulated clock, when every registered job is singly anchored,
    a [run_pending] that returned leaves no registered job due: calling
    it again at the same instant runs no job and changes nothing. *)
Theorem run_pending_again_runs_nothing (w w' : World) (now : datetime) :
  is_realtime (sched (env w)) = false ->
  _timestamp (sched (env w)) = Some now ->
  comparable_jobs w (dt_tzinfo now) ->
  (forall r j, r ∈ jobs (sched (env w)) -> heap w !! r = Some j ->
     singly_anchored j = true) ->
  run_pending w = (Ok tt, w') ->
  due_jobs w' now = [] /\ run_pending w' = (Ok tt, w').
Proof.
  intros Hsim Hnow Hjobs Hanch Hrun. unfold run_pending in Hrun.
  rewrite (bind_ok (gets _) _ w (jobs (sched (env w))) w eq_refl) in Hrun.
  rewrite (bind_ok _ _ _ _ _
             (runnable_jobs_simulated w now Hsim Hnow Hjobs _ (fun _ Hr => Hr)))
    in Hrun.
  fold (due_jobs w now) in Hrun.
  assert (Hdue : forall x, x ∈ due_jobs w now -> x ∈ jobs (sched (env w))).
  { intros x Hx. apply list_elem_of_In, filter_In in Hx as [Hx _].
    by apply list_elem_of_In. }
  unfold sorted in Hrun.
  rewrite (bind_ok _ _ _ _ _
             (sorted_from_simulated w now Hjobs (due_jobs w now) []
                ltac:(intros ? Hx; by apply elem_of_nil in Hx) Hdue)) in Hrun.
  set (L := sort_from_by (next_run_ticks w) [] (due_jobs w now)) in Hrun.
  assert (HL : L ≡ₚ due_jobs w now) by apply sort_from_by_perm.
  assert (Hw : settled now (jobs (sched (env w))) L w).
  { repeat split; try done.
    - intros r Hr. destruct (Hjobs r Hr) as (j & nr & Hj & Hs & Hnr & Htz).
      exists j, nr. repeat split; try done. by apply (Hanch r).
    - intros r Hr. unfold occurrences.
      rewrite (proj1 (Permutation_count_occ Nat.eq_dec _ _) HL r).
      fold (occurrences r (due_jobs w now)). unfold due_jobs.
      by rewrite occurrences_filter. }
  apply (for_each__run_job_settled now _ L w w' Hw) in Hrun;
    [|intros x Hx; apply Hdue; by rewrite <- HL].
  destruct Hrun as (Hrt' & Hts' & Hsub' & Hgood' & Hdue').
  assert (Hjobs' : comparable_jobs w' (dt_tzinfo now)).
  { intros r Hr. destruct (Hgood' r (Hsub' r Hr)) as (j & nr & ? & ? & ? & ? & ?).
    by exists j, nr. }
  assert (Hnone : due_jobs w' now = []).
  { unfold due_jobs. destruct (List.filter _ _) as [|r l] eqn:Hf; [done|].
    assert (Hr : In r (List.filter (is_due w' now) (jobs (sched (env w')))))
      by (rewrite Hf; by left).
    apply filter_In in Hr as [Hr Hd]. apply list_elem_of_In in Hr.
    specialize (Hdue' r Hd). apply occurrences_elem_of in Hr.
    unfold occurrences in Hdue'. simpl in Hdue'. unfold occurrences in Hr. lia. }
  split; [done|]. unfold run_pending.
  rewrite (bind_ok (gets _) _ w' (jobs (sched (env w'))) w' eq_refl).
  rewrite (bind_ok _ _ _ _ _
             (runnable_jobs_simulated w' now Hrt' Hts' Hjobs' _ (fun _ Hr => Hr))).
  fold (due_jobs w' now). rewrite Hnone. reflexivity.
Qed.

(** ** The simulated clock *)

Lemma dt_lt_ge (a b : datetime) (x : bool) :
  dt_lt a b = Ok x -> dt_ge a b = Ok (negb x).
Proof.
  unfold dt_lt, dt_ge. destruct (dt_cmp a b) as [c|]; simpl; [|discriminate].
  intros [= <-]. by destruct c.
Qed.

(** C9: the setter of [Scheduler.timestamp] refuses a realtime scheduler
    and a timestamp strictly earlier than the recorded one, both with
    [ScheduleError] and with the state unchanged; an equal or later
    timestamp is recorded, so the simulated clock never decreases. *)
Theorem timestamp_setter_monotone (e : Env) (t : datetime) :
  (is_realtime (sched e) = true -> set_timestamp t e = (Raise ScheduleError, e)) /\
  (forall cur, is_realtime (sched e) = false -> _timestamp (sched e) = Some cur ->
     (dt_lt t cur = Ok true -> set_timestamp t e = (Raise ScheduleError, e)) /\
     (dt_lt t cur = Ok false ->
        exists e', set_timestamp t e = (Ok tt, e')
                   /\ timestamp e' = (Ok (Some t), e')
                   /\ dt_ge t cur = Ok true
                   /\ is_realtime (sched e') = false
                   /\ jobs (sched e') = jobs (sched e)
                   /\ trace e' = trace e)) /\
  (forall e', set_timestamp t e = (Ok tt, e') ->
     exists cur, _timestamp (sched e) = Some cur /\ _timestamp (sched e') = Some t
                 /\ dt_ge t cur = Ok true).
Proof.
  unfold set_timestamp. split; [|split].
  - intros ->. reflexivity.
  - intros cur Hrt Hts. rewrite Hrt, Hts. split.
    + intros ->. reflexivity.
    + intros Hlt. rewrite Hlt. eexists. split; [reflexivity|].
      unfold timestamp. simpl. rewrite Hrt. repeat split; try assumption.
      apply (dt_lt_ge _ _ _ Hlt).
  - intros e'. destruct (is_realtime (sched e)); [discriminate|].
    destruct (_timestamp (sched e)) as [cur|]; [|discriminate].
    destruct (dt_lt t cur) as [[|]|] eqn:Hlt; try discriminate.
    intros [= <-]. exists cur. repeat split.
    apply (dt_lt_ge _ _ _ Hlt).
Qed.

End Properties.

Lemma timestamp_setter_monotone_witness :
  set_timestamp (H := plain_externals) (naive 10 9 0 0 0) (simulated_env (naive 10 8 0 0 0))
  = (Ok tt, simulated_env (naive 10 9 0 0 0))
  /\ set_timestamp (H := plain_externals) (naive 10 7 0 0 0) (simulated_env (naive 10 8 0 0 0))
     = (Raise ScheduleError, simulated_env (naive 10 8 0 0 0))
  /\ set_timestamp (H := plain_externals) (naive 10 9 0 0 0) (realtime_env 0)
     = (Raise ScheduleError, realtime_env 0).
Proof.
  pose proof (timestamp_setter_monotone (H := plain_externals)
                (simulated_env (naive 10 8 0 0 0)) (naive 10 9 0 0 0)) as [_ [H1 _]].
  destruct (H1 (naive 10 8 0 0 0) eq_refl eq_refl) as [_ H2].
  destruct (H2 eq_refl) as (e' & He' & _).
  pose proof (timestamp_setter_monotone (H := plain_externals)
                (simulated_env (naive 10 8 0 0 0)) (naive 10 7 0 0 0)) as [_ [H3 _]].
  destruct (H3 (naive 10 8 0 0 0) eq_refl eq_refl) as [H4 _].
  pose proof (timestamp_setter_monotone (H := plain_externals)
                (realtime_env 0) (naive 10 9 0 0 0)) as [H5 _].
  split; [|split].
  - rewrite He'. vm_compute in He'. injection He' as <-. reflexivity.
  - exact (H4 eq_refl).
  - exact (H5 eq_refl).
Defined.

(** ** The theorems at sample inputs *)

#[local] Existing Instance plain_externals.

Lemma run_contract_witness :
  run (H := plain_externals) 0%nat
    (every_second_until (naive 100 0 0 0 0) 5%nat, simulated_env (naive 100 0 0 1 0))
  = (Ok PyCancelJobClass,
     (every_second_until (naive 100 0 0 0 0) 5%nat,
      logged (EvRun 0%nat) (simulated_env (naive 100 0 0 1 0))))
  /\ fst (run (H := plain_externals) 0%nat
            (every_second_until (naive 100 0 0 0 0) 5%nat,
             simulated_env (naive 99 0 0 0 0)))
     = Ok (PyInt 5).
Proof.
  split.
  - destruct (run_contract (H := plain_externals) 0%nat
                (every_second_until (naive 100 0 0 0 0) 5%nat)
                (simulated_env (naive 100 0 0 1 0)) _ (Some (naive 100 0 0 1 0))
                eq_refl eq_refl) as [HA _].
    exact (proj1 (HA eq_refl)).
  - destruct (run_contract (H := plain_externals) 0%nat
                (every_second_until (naive 100 0 0 0 0) 5%nat)
                (simulated_env (naive 99 0 0 0 0)) _ (Some (naive 99 0 0 0 0))
                eq_refl eq_refl) as [_ HB].
    destruct (HB eq_refl 5%nat (PyInt 5) (Some (naive 99 0 0 0 0)) _ _ _
                eq_refl eq_refl eq_refl eq_refl false eq_refl) as [Hrun _].
    rewrite Hrun. reflexivity.
Defined.

Lemma job_function_raises_witness :
  _run_job (H := plain_externals) 0%nat
    (mk_World {[ 0%nat := every_second 0%nat ]} (simulated_env (naive 100 0 0 0 0)))
  = (Raise (JobFunctionError 0),
     mk_World {[ 0%nat := every_second 0%nat ]}
       (logged (EvCall 0%nat)
          (logged (EvRun 0%nat) (simulated_env (naive 100 0 0 0 0))))).
Proof.
  exact (proj1 (proj2 (job_function_raises (H := plain_externals) 0%nat
           (mk_World {[ 0%nat := every_second 0%nat ]}
              (simulated_env (naive 100 0 0 0 0)))
           (every_second 0%nat) _ (Some (naive 100 0 0 0 0)) 0%nat
           (JobFunctionError 0) []
           eq_refl eq_refl eq_refl eq_refl eq_refl eq_refl))).
Defined.


Lemma plain_interval_exact_witness :
  exists r j' e' lr nr,
    run (H := plain_externals) 0%nat
      (every_second 5%nat, simulated_env (naive 100 9 0 0 0)) = (Ok r, (j', e'))
    /\ last_run j' = Some lr /\ lr = naive 100 9 0 0 0
    /\ next_run j' = Some nr
    /\ dt_sub (H := plain_externals) nr lr = Ok (1 * SECOND)
    /\ dt_ticks nr - dt_ticks lr = 1 * SECOND.
Proof.
  refine (plain_interval_exact (H := plain_externals) 0%nat (every_second 5%nat)
            (simulated_env (naive 100 9 0 0 0)) (naive 100 9 0 0 0) "seconds" SECOND
            5%nat (PyInt 5) eq_refl eq_refl eq_refl eq_refl eq_refl _ eq_refl
            eq_refl eq_refl eq_refl eq_refl eq_refl eq_refl _ _).
  - vm_compute. discriminate.
  - split; vm_compute; [discriminate | reflexivity].
  - vm_compute. reflexivity.
Defined.

(** On the wall clock the two instants are read one after the other:
    the difference exceeds the interval by the time between the reads. *)
Lemma interval_not_exact_on_wall_clock :
  exists j lr nr,
    fst (every_second_on_wall_clock (H := plain_externals)
           (mk_World ∅ (realtime_env (738000 * DAY)))) = Ok j
    /\ valid_unit (unit j) = true /\ 1 <= interval j
    /\ at_time j = None /\ latest j = None /\ start_day j = None
    /\ last_run j = Some lr /\ next_run j = Some nr
    /\ dt_sub (H := plain_externals) nr lr = Ok (interval j * SECOND + 1)
    /\ dt_sub (H := plain_externals) nr lr <> Ok (interval j * SECOND).
Proof.
  eexists _, _, _. split; [vm_compute; reflexivity|].
  repeat split; try (vm_compute; congruence).
Qed.

Lemma every_day_at_1030_next_run_witness :
  exists j' e',
    (day ;;; at_ (H := plain_externals) (ArgStr "10:30") TzNone ;;; do_ 0%nat 5%nat)
      (Job_init 1 (Some the_scheduler), simulated_env (naive 100 9 0 0 0))
    = (Ok tt, (j', e'))
    /\ next_run j' = Some (naive 100 10 30 0 0).
Proof.
  destruct (every_day_at_1030_next_run (H := plain_externals) 0%nat 5%nat
              (simulated_env (naive 100 9 0 0 0)) _ (naive 100 9 0 0 0) eq_refl
              ltac:(split; vm_compute; [discriminate | reflexivity])
              ltac:(vm_compute; reflexivity))
    as (j' & e' & Hrun & _ & Hbefore & _).
  exists j', e'. split; [exact Hrun|].
  rewrite Hbefore by (vm_compute; reflexivity). reflexivity.
Defined.

Lemma every_monday_at_noon_next_run_witness :
  exists j' e' nr,
    (monday ;;; at_ (H := plain_externals) (ArgStr "12:00") TzNone ;;; do_ 0%nat 5%nat)
      (Job_init 1 (Some the_scheduler), simulated_env (naive 702 13 0 0 0))
    = (Ok tt, (j', e'))
    /\ next_run j' = Some nr /\ dt_weekday nr = 0
    /\ dt_toordinal nr = dt_toordinal (naive 702 13 0 0 0) + 5
    /\ exists j'',
         _schedule_next_run (H := plain_externals)
           (set_last_run (Some (naive 702 13 0 0 0)) j',
            simulated_env (naive 702 13 0 0 0))
         = (Ok tt, (j'', simulated_env (naive 702 13 0 0 0)))
         /\ next_run j'' = Some nr.
Proof.
  destruct (every_monday_at_noon_next_run (H := plain_externals) 0%nat 5%nat
              (simulated_env (naive 702 13 0 0 0)) _ (naive 702 13 0 0 0) eq_refl
              ltac:(split; vm_compute; [discriminate | reflexivity])
              ltac:(vm_compute; reflexivity))
    as (j' & e' & nr & d & Hrun & Hnr & Hwd & _ & _ & _ & _ & _ & _ & Hother & Hagain).
  exists j', e', nr. repeat split; try assumption.
  - rewrite Hother by (vm_compute; discriminate). reflexivity.
  - exact (Hagain (naive 702 13 0 0 0) (simulated_env (naive 702 13 0 0 0))
             (simulated_env (naive 702 13 0 0 0)) eq_refl eq_refl).
Defined.



Lemma registered_jobs_have_next_run_witness :
  exists w, reachable w /\ jobs (sched (env w)) = [0%nat]
            /\ registered_have_next_run w.
Proof.
  assert (H0 : reachable (new_world (naive 100 9 0 0 0)))
    by exact (reachable_new false (Some (naive 100 9 0 0 0)) _ _ _ eq_refl).
  assert (H1 : reachable (snd (call_api (Every 1) (new_world (naive 100 9 0 0 0)))))
    by (eapply reachable_call with (c := Every 1); [exact H0 | reflexivity]).
  set (w1 := snd (call_api (Every 1) (new_world (naive 100 9 0 0 0)))) in *.
  assert (H2 : reachable (snd (call_api (OnJob 0%nat Seconds) w1)))
    by (eapply reachable_call with (c := OnJob 0%nat Seconds);
        [exact H1 | reflexivity]).
  set (w2 := snd (call_api (OnJob 0%nat Seconds) w1)) in *.
  assert (H3 : reachable (snd (call_api (OnJob 0%nat (Do 5%nat)) w2)))
    by (eapply reachable_call with (c := OnJob 0%nat (Do 5%nat));
        [exact H2 | reflexivity]).
  eexists. split; [exact H3|]. split; [vm_compute; reflexivity|].
  exact (proj1 (registered_jobs_have_next_run _ H3)).
Defined.

(** C2, the repeated call: day 738885 is Monday 2024-01-01.  The job is
    [every().monday.at("12:00")], configured on the Sunday
    before; with the clock at Monday 12:00:00 the first [run_pending()]
    runs it and reschedules it for the very same instant, so the second
    [run_pending()], at the unchanged instant, runs it again. *)
Lemma run_pending_repeats_at_the_anchor :
  exists w,
    monday_noon_job_polled_twice (naive 738885 12 0 0 0)
      (new_world (naive 738884 9 0 0 0)) = (Ok tt, w)
    /\ dt_weekday (naive 738885 12 0 0 0) = 0
    /\ timestamp (env w) = (Ok (Some (naive 738885 12 0 0 0)), env w)
    /\ runs (trace (env w)) = [0%nat; 0%nat]
    /\ calls (trace (env w)) = [2%nat; 2%nat]
    /\ (exists j, heap w !! 0%nat = Some j
                  /\ next_run j = Some (naive 738885 12 0 0 0)).
Proof.
  eexists. split; [vm_compute; reflexivity|].
  repeat split. eexists. split; vm_compute; reflexivity.
Qed.

(** The daily job at its anchor: configured on Sunday 2023-12-31 at
    09:00 and polled on Monday at 10:30:00 sharp, it is run once and
    rescheduled for Tuesday; the second [run_pending()] finds nothing
    due. *)
Lemma run_pending_again_runs_nothing_witness :
  let now := naive 738885 10 30 0 0 in
  let w := snd (daily_job_at now (new_world (naive 738884 9 0 0 0))) in
  let w' := snd (run_pending w) in
  runs (trace (env w')) = [0%nat]
  /\ due_jobs w' now = [] /\ run_pending w' = (Ok tt, w').
Proof.
  intros now w w'. split; [vm_compute; reflexivity|].
  assert (Hjobs : jobs (sched (env w)) = [0%nat]) by (vm_compute; reflexivity).
  let oj := eval vm_compute in (heap w !! 0%nat) in
  assert (Hheap : heap w !! 0%nat = oj) by (vm_compute; reflexivity).
  apply (run_pending_again_runs_nothing w w' now).
  - vm_compute; reflexivity.
  - vm_compute; reflexivity.
  - intros r Hr. rewrite Hjobs in Hr. apply list_elem_of_singleton in Hr as ->.
    eexists _, _. split; [exact Hheap|]. repeat split; reflexivity.
  - intros r j Hr Hj. rewrite Hjobs in Hr. apply list_elem_of_singleton in Hr as ->.
    pose proof (eq_trans (eq_sym Hj) Hheap) as E. injection E as ->.
    vm_compute; reflexivity.
  - vm_compute; reflexivity.
Defined.
